(** * rag_chat_quadrant: the ingestion-and-retrieval core, embedded in Rocq

    A shallow embedding of [backend/pdf_processor.py], [backend/rag_service.py]
    and the upload route of [backend/main.py], with the properties the
    specification states about them. *)

From Stdlib Require Import ZArith Lia Ascii String List Bool DecimalString.
From Stdlib.Strings Require Byte.
From stdpp Require Import base list strings gmap.

Local Open Scope Z_scope.

(** ** Python [str] primitives used by the chunker

    A text is a list of characters.  Every [ascii] stands for one code point
    below 256. *)

Module PyStr.

Abbreviation text := (list ascii).

Definition lit (s : string) : text := list_ascii_of_string s.

Definition len (t : text) : Z := Z.of_nat (length t).

(** [str.isspace] on code points below 256: TAB..CR, FS..US, space, NEL and
    the no-break space. *)
Definition isspace (c : ascii) : bool :=
  let n := N_of_ascii c in
  (((9 <=? n) && (n <=? 13)) || ((28 <=? n) && (n <=? 32))
   || (n =? 133) || (n =? 160))%N.

(** Index adjustment of a slice [t[start:stop]]: a negative index counts from
    the end, and both ends are clamped to [0, len]. *)
Definition adjust_slice (n i : Z) : Z :=
  if i <? 0 then Z.max (i + n) 0 else Z.min i n.

Definition slice (t : text) (start stop : Z) : text :=
  let lo := adjust_slice (len t) start in
  let hi := adjust_slice (len t) stop in
  take (Z.to_nat (hi - lo)) (drop (Z.to_nat lo) t).

Fixpoint lstrip (t : text) : text :=
  match t with
  | c :: t' => if isspace c then lstrip t' else t
  | [] => []
  end.

Definition rstrip (t : text) : text := rev (lstrip (rev t)).

Definition strip (t : text) : text := rstrip (lstrip t).

Fixpoint startswith (t sub : text) : bool :=
  match sub, t with
  | [], _ => true
  | c :: sub', d :: t' => Ascii.eqb c d && startswith t' sub'
  | _ :: _, [] => false
  end.

(** Index adjustment of [find]/[rfind]: the end is cut at [len], negative
    indices count from the end, and the start is not cut at [len]. *)
Definition adjust_find_start (n i : Z) : Z :=
  if i <? 0 then Z.max (i + n) 0 else i.

Definition adjust_find_end (n i : Z) : Z :=
  if n <? i then n else if i <? 0 then Z.max (i + n) 0 else i.

(** Candidates [lo + k - 1], ..., [lo], highest first. *)
Fixpoint rfind_scan (t sub : text) (lo : Z) (k : nat) : Z :=
  match k with
  | O => -1
  | S k' =>
      let i := lo + Z.of_nat k' in
      if startswith (drop (Z.to_nat i) t) sub then i
      else rfind_scan t sub lo k'
  end.

(** [t.rfind(sub, start, stop)]: the highest index [i] with
    [t[i:i+len(sub)] == sub] inside [t[start:stop]], or [-1]. *)
Definition rfind (t sub : text) (start stop : Z) : Z :=
  let lo := adjust_find_start (len t) start in
  let hi := adjust_find_end (len t) stop in
  rfind_scan t sub lo (Z.to_nat (hi - len sub - lo + 1)).

(** The same operations on [string], the type of every Python [str] outside
    the chunker. *)
Definition str_strip (s : string) : string :=
  string_of_list_ascii (strip (list_ascii_of_string s)).

Definition str_len (s : string) : Z := Z.of_nat (String.length s).

(** [str(n)] for an [int]. *)
Definition str_int (n : Z) : string := NilZero.string_of_int (Z.to_int n).

(** [str.lower] on code points below 256. *)
Definition lower_char (c : ascii) : ascii :=
  let n := N_of_ascii c in
  if (((65 <=? n) && (n <=? 90))
      || ((192 <=? n) && (n <=? 222) && negb (n =? 215)))%N
  then ascii_of_N (n + 32) else c.

Definition lower (s : string) : string :=
  string_of_list_ascii (map lower_char (list_ascii_of_string s)).

Definition endswith (s suffix : string) : bool :=
  startswith (rev (list_ascii_of_string s)) (rev (list_ascii_of_string suffix)).

(** [len(s.split())]: the number of maximal runs of non-space characters. *)
Fixpoint count_words (t : text) (in_word : bool) : Z :=
  match t with
  | [] => 0
  | c :: t' =>
      if isspace c then count_words t' false
      else (if in_word then 0 else 1) + count_words t' true
  end.

Definition word_count (s : string) : Z :=
  count_words (list_ascii_of_string s) false.

Definition nl : string := String (ascii_of_nat 10) EmptyString.

(** [sep.join(parts)]. *)
Fixpoint join (sep : string) (parts : list string) : string :=
  match parts with
  | [] => EmptyString
  | [x] => x
  | x :: rest => x +:+ sep +:+ join sep rest
  end.

End PyStr.

(** ** [PDFProcessor.chunk_text] *)

Module Chunker.
Import PyStr.

(** [settings.CHUNK_SIZE] and [settings.CHUNK_OVERLAP] of [config.py]. *)
Definition CHUNK_SIZE : Z := 1000.
Definition CHUNK_OVERLAP : Z := 200.

(** [v or default] on an optional integer argument: [None] and [0] are
    falsy. *)
Definition py_or (v : option Z) (default : Z) : Z :=
  match v with
  | Some x => if x =? 0 then default else x
  | None => default
  end.

Definition sentence_endings : list text := [lit ". "; lit "! "; lit "? "].

(** The [for punct in ['. ', '! ', '? ']] loop with its [break]. *)
Fixpoint break_at (t : text) (start end_ : Z) (puncts : list text) : Z :=
  match puncts with
  | [] => end_
  | punct :: rest =>
      let last_punct := rfind t punct start end_ in
      if last_punct =? -1 then break_at t start end_ rest
      else last_punct + 1
  end.

(** The value of [end] once the sentence-boundary search is over. *)
Definition window_end (t : text) (chunk_size start : Z) : Z :=
  let end_ := start + chunk_size in
  if end_ <? len t then break_at t start end_ sentence_endings else end_.

Record state := { start : Z; chunks : list text }.

(** One iteration of the [while] body. *)
Definition step (t : text) (chunk_size overlap : Z) (s : state) : state :=
  let end_ := window_end t chunk_size (start s) in
  let chunk := strip (slice t (start s) end_) in
  let chunks' :=
    match chunk with [] => chunks s | _ :: _ => chunks s ++ [chunk] end in
  {| start := if end_ <? len t then end_ - overlap else len t;
     chunks := chunks' |}.

(** The loop is left as soon as [start >= len(text)]. *)
Definition halted (t : text) (s : state) : bool := len t <=? start s.

Fixpoint run (fuel : nat) (t : text) (chunk_size overlap : Z) (s : state)
  : state :=
  match fuel with
  | O => s
  | S fuel' =>
      if halted t s then s
      else run fuel' t chunk_size overlap (step t chunk_size overlap s)
  end.

Definition init : state := {| start := 0; chunks := [] |}.

(** [chunk_text(text, chunk_size, overlap)]; [None] when [fuel] iterations
    do not reach the end of the loop. *)
Definition chunk_text (fuel : nat) (t : text) (chunk_size overlap : option Z)
  : option (list text) :=
  let chunk_size := py_or chunk_size CHUNK_SIZE in
  let overlap := py_or overlap CHUNK_OVERLAP in
  if len t <=? chunk_size then Some [t]
  else
    let s := run fuel t chunk_size overlap init in
    if halted t s then Some (chunks s) else None.

End Chunker.


(** ** Exceptions and dynamically typed values *)

Module Py.
Import PyStr.

Inductive exn :=
| ValueError (msg : string)
| AttributeError (msg : string)
| KeyError (key : string)
| IndexError (msg : string)
| FileNotFoundError (path : string)
| HTTPException (status_code : Z) (detail : string)
| ExternalError (msg : string).
(** [ExternalError] stands for whatever a collaborator raises: pypdf, the
    embedding model, the Qdrant client or the Gemini client. *)

(** [str(e)]. *)
Definition str_exn (e : exn) : string :=
  match e with
  | ValueError msg | AttributeError msg | IndexError msg
  | ExternalError msg => msg
  | KeyError key => "'" +:+ key +:+ "'"
  | FileNotFoundError path =>
      "[Errno 2] No such file or directory: '" +:+ path +:+ "'"
  | HTTPException code detail => str_int code +:+ ": " +:+ detail
  end.

Inductive result (A : Type) :=
| Ok (a : A)
| Err (e : exn).
Arguments Ok {A} a.
Arguments Err {A} e.

(** A similarity score.  Scores are only compared and passed on, never
    computed with; they are carried as integers. *)
Definition score := Z.

(** The values stored in payloads and in the dictionaries built from them. *)
Inductive scalar :=
| SStr (s : string)
| SInt (n : Z)
| SFloat (x : score).

(** A flat [dict] with string keys. *)
Abbreviation dict := (gmap string scalar).

(** [d[key]]. *)
Definition getitem (d : dict) (key : string) : result scalar :=
  match d !! key with
  | Some v => Ok v
  | None => Err (KeyError key)
  end.

(** The text a value contributes to an f-string. *)
Definition format (v : scalar) : string :=
  match v with
  | SStr s => s
  | SInt n => str_int n
  | SFloat x => str_int x
  end.

(** The fields of the dictionary returned by the answer composer. *)
Inductive field :=
| FStr (s : string)
| FInt (n : Z)
| FDicts (l : list dict).

Abbreviation answer := (gmap string field).

End Py.

(** ** The relational store: [models.py] seen through one SQLAlchemy session *)

Module Store.

Record Document := {
  id : string;
  filename : string;
  original_filename : string;
  file_size : Z;
  content_hash : string;
  page_count : option Z;
  processing_status : string;
  error_message : option string;
  chunk_count : Z
}.

Record DocumentChunk := {
  document_id : string;
  chunk_index : Z;
  page_number : Z;
  content_preview : string;
  vector_id : string
}.

(** The rows as the session sees them (pending changes included) and the rows
    committed so far. *)
Record Database := {
  session_documents : list Document;
  session_new_chunks : list DocumentChunk;
  stored_documents : list Document;
  stored_chunks : list DocumentChunk
}.

(** [db.commit()]: pending rows and pending attribute changes are written. *)
Definition commit (d : Database) : Database :=
  {| session_documents := session_documents d;
     session_new_chunks := [];
     stored_documents := session_documents d;
     stored_chunks := stored_chunks d ++ session_new_chunks d |}.

(** [db.query(Document).filter(Document.id == i).first()] *)
Definition first_by_id (d : Database) (i : string) : option Document :=
  List.find (fun doc => String.eqb (id doc) i) (session_documents d).

(** [db.query(Document).filter(Document.content_hash == h).first()] *)
Definition first_by_hash (d : Database) (h : string) : option Document :=
  List.find (fun doc => String.eqb (content_hash doc) h) (session_documents d).

(** An attribute assignment on the loaded row with identifier [i]. *)
Fixpoint update_row (f : Document -> Document) (i : string)
  (rows : list Document) : list Document :=
  match rows with
  | [] => []
  | doc :: rest =>
      if String.eqb (id doc) i then f doc :: rest
      else doc :: update_row f i rest
  end.

Definition update_document (f : Document -> Document) (i : string)
  (d : Database) : Database :=
  {| session_documents := update_row f i (session_documents d);
     session_new_chunks := session_new_chunks d;
     stored_documents := stored_documents d;
     stored_chunks := stored_chunks d |}.

Definition add_document (doc : Document) (d : Database) : Database :=
  {| session_documents := session_documents d ++ [doc];
     session_new_chunks := session_new_chunks d;
     stored_documents := stored_documents d;
     stored_chunks := stored_chunks d |}.

Definition add_chunk (row : DocumentChunk) (d : Database) : Database :=
  {| session_documents := session_documents d;
     session_new_chunks := session_new_chunks d ++ [row];
     stored_documents := stored_documents d;
     stored_chunks := stored_chunks d |}.

Definition set_status (st : string) (doc : Document) : Document :=
  {| id := id doc; filename := filename doc;
     original_filename := original_filename doc; file_size := file_size doc;
     content_hash := content_hash doc; page_count := page_count doc;
     processing_status := st; error_message := error_message doc;
     chunk_count := chunk_count doc |}.

Definition set_error_message (msg : string) (doc : Document) : Document :=
  {| id := id doc; filename := filename doc;
     original_filename := original_filename doc; file_size := file_size doc;
     content_hash := content_hash doc; page_count := page_count doc;
     processing_status := processing_status doc; error_message := Some msg;
     chunk_count := chunk_count doc |}.

Definition set_page_count (n : Z) (doc : Document) : Document :=
  {| id := id doc; filename := filename doc;
     original_filename := original_filename doc; file_size := file_size doc;
     content_hash := content_hash doc; page_count := Some n;
     processing_status := processing_status doc;
     error_message := error_message doc; chunk_count := chunk_count doc |}.

Definition set_chunk_count (n : Z) (doc : Document) : Document :=
  {| id := id doc; filename := filename doc;
     original_filename := original_filename doc; file_size := file_size doc;
     content_hash := content_hash doc; page_count := page_count doc;
     processing_status := processing_status doc;
     error_message := error_message doc; chunk_count := n |}.

End Store.

(** ** The vector index: the part of Qdrant the code relies on *)

Module Qdrant.
Import Py.

Definition vector := list Z.

(** [PointStruct(id, vector, payload)] *)
Record PointStruct := {
  point_id : string;
  point_vector : vector;
  payload : dict
}.

(** [FieldCondition(key, match=MatchValue(value))] *)
Record FieldCondition := { key : string; match_value : scalar }.

(** [Filter(must=..., should=...)].  Qdrant keeps a point when every [must]
    condition holds and, if [should] is not empty, at least one [should]
    condition holds. *)
Record Filter := { must : list FieldCondition; should : list FieldCondition }.

Definition scalar_eqb (a b : scalar) : bool :=
  match a, b with
  | SStr x, SStr y => String.eqb x y
  | SInt x, SInt y => x =? y
  | SFloat x, SFloat y => x =? y
  | _, _ => false
  end.

Definition condition_holds (p : dict) (c : FieldCondition) : bool :=
  match p !! key c with
  | Some v => scalar_eqb v (match_value c)
  | None => false
  end.

Definition passes (f : option Filter) (pt : PointStruct) : bool :=
  match f with
  | None => true
  | Some f =>
      forallb (condition_holds (payload pt)) (must f)
      && match should f with
         | [] => true
         | _ :: _ => existsb (condition_holds (payload pt)) (should f)
         end
  end.

(** [ScoredPoint]: one search hit. *)
Record ScoredPoint := {
  hit_id : string;
  hit_score : score;
  hit_payload : dict
}.

Fixpoint insert_by_score (h : ScoredPoint) (l : list ScoredPoint)
  : list ScoredPoint :=
  match l with
  | [] => [h]
  | x :: rest =>
      if hit_score x <? hit_score h then h :: l
      else x :: insert_by_score h rest
  end.

(** Hits in non-increasing score order. *)
Definition rank (l : list ScoredPoint) : list ScoredPoint :=
  foldr insert_by_score [] l.

(** [client.search(query_vector, query_filter, limit, with_payload=True)] on
    a collection holding [points], for a similarity measure [sim]. *)
Definition search (sim : vector -> vector -> score)
  (points : gmap string PointStruct) (query_vector : vector)
  (query_filter : option Filter) (limit : Z) : list ScoredPoint :=
  let kept := List.filter (passes query_filter) (map snd (map_to_list points)) in
  let scored :=
    map (fun pt => {| hit_id := point_id pt;
                      hit_score := sim query_vector (point_vector pt);
                      hit_payload := payload pt |}) kept in
  take (Z.to_nat limit) (rank scored).

(** [client.upsert(points)]: insert or replace by identifier. *)
Definition upsert (points : gmap string PointStruct) (new : list PointStruct)
  : gmap string PointStruct :=
  foldl (fun m pt => <[point_id pt := pt]> m) points new.

End Qdrant.

(** ** The world the services act on, and the effect monad *)

Module Sys.
Import PyStr Py Store Qdrant.

(** What an observer of one run can see, in order. *)
Inductive event :=
| EvCommit (flushed : list DocumentChunk)
| EvAdd (row : DocumentChunk)
| EvUpsert (points : list PointStruct)
| EvGenerate (prompt : string).

Record world := {
  db : Database;
  index : gmap string PointStruct;
  files : gmap string (list Byte.byte);
  tasks : list (string * string);
  uuids_drawn : nat;
  clock_reads : nat;
  trace : list event
}.

(** The collaborators the core consumes: identifier and clock sources, the
    hash function, the PDF reader, the embedding model, the index service and
    the generation model.  A failing collaborator answers with an
    exception. *)
Record Providers := {
  uuid4 : nat -> string;
  now_ms : nat -> Z;
  sha256_hexdigest : list Byte.byte -> string;
  pdf_pages : list Byte.byte -> result (list string);
  encode : list string -> result (list vector);
  similarity : vector -> vector -> score;
  upsert_failure : list PointStruct -> option exn;
  search_failure : vector -> option exn;
  generate_content : string -> result string
}.

Inductive outcome (A : Type) :=
| Returns (a : A) (w : world)
| Raises (e : exn) (w : world)
| Diverges.
Arguments Returns {A} a w.
Arguments Raises {A} e w.
Arguments Diverges {A}.

Definition M (A : Type) : Type := world -> outcome A.

Definition ret {A} (a : A) : M A := fun w => Returns a w.

Definition bind {A B} (m : M A) (k : A -> M B) : M B :=
  fun w =>
    match m w with
    | Returns a w' => k a w'
    | Raises e w' => Raises e w'
    | Diverges => Diverges
    end.

Definition raise {A} (e : exn) : M A := fun w => Raises e w.

(** [try: m  except Exception as e: handler e] *)
Definition try_except {A} (m : M A) (handler : exn -> M A) : M A :=
  fun w =>
    match m w with
    | Raises e w' => handler e w'
    | o => o
    end.

Definition lift {A} (r : result A) : M A :=
  match r with
  | Ok a => ret a
  | Err e => raise e
  end.

Definition get : M world := fun w => Returns w w.

Definition modify (f : world -> world) : M unit := fun w => Returns tt (f w).

Declare Scope py_scope.
Delimit Scope py_scope with py.
Bind Scope py_scope with M.
Notation "x <- m ;; k" := (bind m (fun x => k))
  (at level 100, m at next level, k at level 200, right associativity)
  : py_scope.
Notation "m ;;; k" := (bind m (fun _ => k))
  (at level 100, k at level 200, right associativity) : py_scope.

Definition with_db (f : Database -> Database) (w : world) : world :=
  {| db := f (db w); index := index w; files := files w; tasks := tasks w;
     uuids_drawn := uuids_drawn w; clock_reads := clock_reads w;
     trace := trace w |}.

Definition with_index (f : gmap string PointStruct -> gmap string PointStruct)
  (w : world) : world :=
  {| db := db w; index := f (index w); files := files w; tasks := tasks w;
     uuids_drawn := uuids_drawn w; clock_reads := clock_reads w;
     trace := trace w |}.

Definition with_files
  (f : gmap string (list Byte.byte) -> gmap string (list Byte.byte))
  (w : world) : world :=
  {| db := db w; index := index w; files := f (files w); tasks := tasks w;
     uuids_drawn := uuids_drawn w; clock_reads := clock_reads w;
     trace := trace w |}.

Definition with_tasks (f : list (string * string) -> list (string * string))
  (w : world) : world :=
  {| db := db w; index := index w; files := files w; tasks := f (tasks w);
     uuids_drawn := uuids_drawn w; clock_reads := clock_reads w;
     trace := trace w |}.

Definition log (ev : event) (w : world) : world :=
  {| db := db w; index := index w; files := files w; tasks := tasks w;
     uuids_drawn := uuids_drawn w; clock_reads := clock_reads w;
     trace := trace w ++ [ev] |}.

(** [db.commit()] *)
Definition db_commit : M unit :=
  modify (fun w => log (EvCommit (session_new_chunks (db w))) (with_db commit w)).

(** [db.add(chunk)] *)
Definition db_add_chunk (row : DocumentChunk) : M unit :=
  modify (fun w => log (EvAdd row) (with_db (add_chunk row) w)).

Definition assign (f : Document -> Document) (i : string) : M unit :=
  modify (with_db (update_document f i)).

Section WithProviders.
Context (P : Providers).

(** [str(uuid.uuid4())] *)
Definition uuid4_str : M string :=
  fun w =>
    Returns (uuid4 P (uuids_drawn w))
      {| db := db w; index := index w; files := files w; tasks := tasks w;
         uuids_drawn := S (uuids_drawn w); clock_reads := clock_reads w;
         trace := trace w |}.

(** [time.time()], read in milliseconds. *)
Definition time_ms : M Z :=
  fun w =>
    Returns (now_ms P (clock_reads w))
      {| db := db w; index := index w; files := files w; tasks := tasks w;
         uuids_drawn := uuids_drawn w; clock_reads := S (clock_reads w);
         trace := trace w |}.

(** [open(path, 'rb').read()] *)
Definition read_file (path : string) : M (list Byte.byte) :=
  fun w =>
    match files w !! path with
    | Some bytes => Returns bytes w
    | None => Raises (FileNotFoundError path) w
    end.

End WithProviders.

End Sys.

(** ** [pdf_processor.py]: extraction, ingestion, search, hashing *)

Module Processor.
Import PyStr Py Store Qdrant Sys.
Local Open Scope py_scope.

Record Page := { page_no : Z; content : string }.

(** The dictionaries of [chunk_metadata]. *)
Record ChunkMeta := {
  chunk_uuid : string;
  chunk_id : string;
  meta_document_id : string;
  meta_page_number : Z;
  meta_chunk_index : Z;
  meta_content : string
}.

(** The [enumerate] loop of [extract_text_from_pdf]: pages that are blank
    after stripping are left out, the others keep their 1-based number. *)
Fixpoint collect_pages (raw : list string) (page_num : Z) : list Page :=
  match raw with
  | [] => []
  | text :: rest =>
      let stripped := str_strip text in
      match stripped with
      | EmptyString => collect_pages rest (page_num + 1)
      | String _ _ =>
          {| page_no := page_num + 1; content := stripped |}
          :: collect_pages rest (page_num + 1)
      end
  end.

(** [chunk_text] with both optional arguments left out, on a [str]. *)
Definition chunk_page (fuel : nat) (text : string) : option (list string) :=
  option_map (map string_of_list_ascii)
    (Chunker.chunk_text fuel (list_ascii_of_string text) None None).

(** [content[:200] + "..." if len(content) > 200 else content] *)
Definition preview (content : string) : string :=
  if 200 <? str_len content then String.substring 0 200 content +:+ "..."
  else content.

(** The payload written for one chunk of a document whose stored row is
    [document]. *)
Definition point_payload (document_id : string) (document : Document)
  (m : ChunkMeta) : dict :=
  <["document_id" := SStr document_id]>
  (<["page_number" := SInt (meta_page_number m)]>
  (<["chunk_index" := SInt (meta_chunk_index m)]>
  (<["content" := SStr (meta_content m)]>
  (<["filename" := SStr (filename document)]>
  (<["chunk_id" := SStr (chunk_id m)]> ∅))))).

Definition make_point (document_id : string) (document : Document)
  (me : ChunkMeta * vector) : PointStruct :=
  {| point_id := chunk_uuid (fst me);
     point_vector := snd me;
     payload := point_payload document_id document (fst me) |}.

Definition make_row (document_id : string) (m : ChunkMeta) : DocumentChunk :=
  {| document_id := document_id;
     chunk_index := meta_chunk_index m;
     page_number := meta_page_number m;
     content_preview := preview (meta_content m);
     vector_id := chunk_uuid m |}.

Fixpoint add_rows (rows : list DocumentChunk) : M unit :=
  match rows with
  | [] => ret tt
  | row :: rest => db_add_chunk row ;;; add_rows rest
  end.

Section WithProviders.
Context (P : Providers).

(** [extract_text_from_pdf]; its handler logs and raises again. *)
Definition extract_text_from_pdf (file_path : string) : M (list Page) :=
  bytes <- read_file file_path ;;
  raw <- lift (pdf_pages P bytes) ;;
  ret (collect_pages raw 0).

(** [create_embeddings]; its handler logs and raises again. *)
Definition create_embeddings (texts : list string) : M (list vector) :=
  lift (encode P texts).

(** The loop over [enumerate(page_chunks)]; [acc] holds [all_chunks] and
    [chunk_metadata]. *)
Fixpoint chunk_loop (document_id : string) (page : Page)
  (page_chunks : list string) (chunk_idx : Z)
  (acc : list string * list ChunkMeta) : M (list string * list ChunkMeta) :=
  match page_chunks with
  | [] => ret acc
  | chunk :: rest =>
      uuid <- uuid4_str P ;;
      let all_chunks := fst acc ++ [chunk] in
      let m := {| chunk_uuid := uuid;
                  chunk_id := document_id +:+ "_" +:+ str_int (page_no page)
                              +:+ "_" +:+ str_int chunk_idx;
                  meta_document_id := document_id;
                  meta_page_number := page_no page;
                  meta_chunk_index := Z.of_nat (length all_chunks) - 1;
                  meta_content := chunk |} in
      chunk_loop document_id page rest (chunk_idx + 1)
        (all_chunks, snd acc ++ [m])
  end.

(** The loop over [pages]. *)
Fixpoint page_loop (fuel : nat) (document_id : string) (pages : list Page)
  (acc : list string * list ChunkMeta) : M (list string * list ChunkMeta) :=
  match pages with
  | [] => ret acc
  | page :: rest =>
      match chunk_page fuel (content page) with
      | None => fun _ => Diverges
      | Some page_chunks =>
          acc' <- chunk_loop document_id page page_chunks 0 acc ;;
          page_loop fuel document_id rest acc'
      end
  end.

(** [qdrant_client.upsert(points=points)] *)
Definition qdrant_upsert (points : list PointStruct) : M unit :=
  match upsert_failure P points with
  | Some e => raise e
  | None => modify (fun w => log (EvUpsert points) (with_index (fun m => upsert m points) w))
  end.

(** The steps of [process_pdf] that follow the first commit: extraction,
    chunking, embedding, the batch upsert, the chunk rows and the final
    status. *)
Definition ingest (fuel : nat) (file_path document_id : string)
  (document : Document) : M bool :=
  pages <- extract_text_from_pdf file_path ;;
  assign (set_page_count (Z.of_nat (length pages))) document_id ;;;
  chunked <- page_loop fuel document_id pages ([], []) ;;
  let all_chunks := fst chunked in
  let chunk_metadata := snd chunked in
  embeddings <- create_embeddings all_chunks ;;
  let points :=
    map (make_point document_id document) (zip chunk_metadata embeddings) in
  qdrant_upsert points ;;;
  add_rows (map (make_row document_id) chunk_metadata) ;;;
  assign (set_status "completed") document_id ;;;
  assign (set_chunk_count (Z.of_nat (length all_chunks))) document_id ;;;
  db_commit ;;;
  ret true.

(** The [try] block of [process_pdf] from the point where [document] has
    been looked up. *)
Definition process_pdf_body (fuel : nat) (file_path document_id : string)
  (document : option Document) : M bool :=
  match document with
  | None => raise (ValueError ("Document " +:+ document_id +:+ " not found"))
  | Some document =>
      assign (set_status "processing") document_id ;;;
      db_commit ;;;
      ingest fuel file_path document_id document
  end.

(** The [except] block of [process_pdf]: it assigns to the attributes of
    [document], which is [None] when the lookup found no row. *)
Definition process_pdf_handler (document_id : string)
  (document : option Document) (e : exn) : M bool :=
  match document with
  | None =>
      raise (AttributeError
               "'NoneType' object has no attribute 'processing_status'")
  | Some _ =>
      assign (set_status "failed") document_id ;;;
      assign (set_error_message (str_exn e)) document_id ;;;
      db_commit ;;;
      ret false
  end.

(** [process_pdf(file_path, document_id, db)].  The lookup is the first
    statement of the [try] block and binds [document] for both the rest of
    the block and the handler. *)
Definition process_pdf (fuel : nat) (file_path document_id : string) : M bool :=
  w <- get ;;
  let document := first_by_id (db w) document_id in
  try_except (process_pdf_body fuel file_path document_id document)
    (process_pdf_handler document_id document).

(** One entry of [results] in [search_similar_chunks]. *)
Definition hit_dict (hit : ScoredPoint) : result dict :=
  match getitem (hit_payload hit) "document_id",
        getitem (hit_payload hit) "page_number",
        getitem (hit_payload hit) "chunk_index",
        getitem (hit_payload hit) "content",
        getitem (hit_payload hit) "filename" with
  | Ok d, Ok p, Ok c, Ok t, Ok f =>
      Ok (<["id" := SStr (hit_id hit)]>
          (<["score" := SFloat (hit_score hit)]>
          (<["document_id" := d]>
          (<["page_number" := p]>
          (<["chunk_index" := c]>
          (<["content" := t]>
          (<["filename" := f]> ∅)))))))
  | Err e, _, _, _, _ => Err e
  | _, Err e, _, _, _ => Err e
  | _, _, Err e, _, _ => Err e
  | _, _, _, Err e, _ => Err e
  | _, _, _, _, Err e => Err e
  end.

Fixpoint hit_dicts (hits : list ScoredPoint) : result (list dict) :=
  match hits with
  | [] => Ok []
  | hit :: rest =>
      match hit_dict hit with
      | Err e => Err e
      | Ok d =>
          match hit_dicts rest with
          | Err e => Err e
          | Ok ds => Ok (d :: ds)
          end
      end
  end.

(** The filter built from [document_filter]: one [must] condition per
    identifier; none when the argument is [None] or empty. *)
Definition make_filter (document_filter : option (list string))
  : option Filter :=
  match document_filter with
  | None | Some [] => None
  | Some ids =>
      Some {| must := map (fun doc_id => {| key := "document_id";
                                            match_value := SStr doc_id |}) ids;
              should := [] |}
  end.

(** [qdrant_client.search(...)] *)
Definition qdrant_search (query_vector : vector) (f : option Filter)
  (limit : Z) : M (list ScoredPoint) :=
  match search_failure P query_vector with
  | Some e => raise e
  | None =>
      w <- get ;;
      ret (search (similarity P) (index w) query_vector f limit)
  end.

(** [search_similar_chunks(query, top_k, document_filter)]; its handler logs
    and raises again. *)
Definition search_similar_chunks (query : string) (top_k : Z)
  (document_filter : option (list string)) : M (list dict) :=
  encoded <- lift (encode P [query]) ;;
  match encoded with
  | [] => raise (IndexError "index 0 is out of bounds")
  | query_embedding :: _ =>
      let search_filter := make_filter document_filter in
      search_result <- qdrant_search query_embedding search_filter top_k ;;
      lift (hit_dicts search_result)
  end.

(** The read loop of [calculate_file_hash]: blocks of 4096 bytes are fed to
    the hash object until an empty block is read; [fed] is what the hash
    object has received. *)
Fixpoint feed_blocks (fuel : nat) (data fed : list Byte.byte)
  : list Byte.byte :=
  match fuel with
  | O => fed
  | S fuel' =>
      match take (Z.to_nat 4096) data with
      | [] => fed
      | block => feed_blocks fuel' (drop (Z.to_nat 4096) data) (fed ++ block)
      end
  end.

(** [calculate_file_hash(file_path)] *)
Definition calculate_file_hash (file_path : string) : M string :=
  bytes <- read_file file_path ;;
  ret (sha256_hexdigest P (feed_blocks (S (length bytes)) bytes [])).

End WithProviders.

End Processor.

(** ** [main.py]: the upload route *)

Module Api.
Import PyStr Py Store Qdrant Sys Processor.
Local Open Scope py_scope.

(** [settings.UPLOAD_DIR] and [settings.MAX_FILE_SIZE]. *)
Definition UPLOAD_DIR : string := "uploads".
Definition MAX_FILE_SIZE : Z := 50 * 1024 * 1024.

Record UploadFile := {
  upload_filename : string;
  upload_size : Z;
  upload_content : list Byte.byte
}.

Record DocumentUploadResponse := {
  response_id : string;
  response_filename : string;
  response_status : string;
  response_message : string
}.

Section WithProviders.
Context (P : Providers).

(** The [try] block of [upload_document]. *)
Definition store_upload (file : UploadFile) : M DocumentUploadResponse :=
  file_id <- uuid4_str P ;;
  let filename := file_id +:+ "_" +:+ upload_filename file in
  let file_path := UPLOAD_DIR +:+ "/" +:+ filename in
  modify (with_files (fun fs => <[file_path := upload_content file]> fs)) ;;;
  file_hash <- calculate_file_hash P file_path ;;
  w <- get ;;
  match first_by_hash (db w) file_hash with
  | Some existing_doc =>
      modify (with_files (fun fs => delete file_path fs)) ;;;
      ret {| response_id := id existing_doc;
             response_filename := Store.filename existing_doc;
             response_status := "already_exists";
             response_message := "Document already uploaded" |}
  | None =>
      let document :=
        {| id := file_id;
           Store.filename := filename;
           original_filename := upload_filename file;
           file_size := upload_size file;
           content_hash := file_hash;
           page_count := None;
           processing_status := "pending";
           error_message := None;
           chunk_count := 0 |} in
      modify (with_db (add_document document)) ;;;
      db_commit ;;;
      modify (with_tasks (fun ts => ts ++ [(file_path, file_id)])) ;;;
      ret {| response_id := file_id;
             response_filename := upload_filename file;
             response_status := "uploaded";
             response_message :=
               "Document uploaded successfully and processing started" |}
  end.

(** [upload_document(background_tasks, file, db)] *)
Definition upload_document (file : UploadFile) : M DocumentUploadResponse :=
  if negb (endswith (lower (upload_filename file)) ".pdf") then
    raise (HTTPException 400 "Only PDF files are allowed")
  else if MAX_FILE_SIZE <? upload_size file then
    raise (HTTPException 400 "File too large")
  else
    try_except (store_upload file)
      (fun _ => raise (HTTPException 500 "Error uploading document")).

End WithProviders.

End Api.

(** ** [rag_service.py]: prompt construction and answer shaping *)

Module Rag.
Import PyStr Py Store Qdrant Sys Processor.
Local Open Scope py_scope.

(** The text returned by [create_rag_prompt] when there is no context and
    sources are required. *)
Definition NO_SOURCES_TEXT : string :=
  "I couldn't find any relevant information in the uploaded documents to answer your question. Please try rephrasing your question or upload relevant documents.".

(** [f"[Document: {chunk['filename']}, Page: {chunk['page_number']}]\n{chunk['content']}"] *)
Definition context_block (chunk : dict) : result string :=
  match getitem chunk "filename", getitem chunk "page_number",
        getitem chunk "content" with
  | Ok f, Ok p, Ok c =>
      Ok ("[Document: " +:+ format f +:+ ", Page: " +:+ format p +:+ "]"
          +:+ nl +:+ format c)
  | Err e, _, _ => Err e
  | _, Err e, _ => Err e
  | _, _, Err e => Err e
  end.

Fixpoint context_blocks (chunks : list dict) : result (list string) :=
  match chunks with
  | [] => Ok []
  | chunk :: rest =>
      match context_block chunk with
      | Err e => Err e
      | Ok b =>
          match context_blocks rest with
          | Err e => Err e
          | Ok bs => Ok (b :: bs)
          end
      end
  end.

Definition prompt_template (context_text query : string) : string :=
  "You are a helpful AI assistant that answers questions based on provided PDF document content. "
  +:+ nl +:+ nl
  +:+ "Your task is to:" +:+ nl
  +:+ "1. Answer the user's question using ONLY the information provided in the context below" +:+ nl
  +:+ "2. Be accurate and specific" +:+ nl
  +:+ "3. Include citations in your response by referencing the document name and page number" +:+ nl
  +:+ "4. If the context doesn't contain enough information to answer the question completely, say so clearly" +:+ nl
  +:+ "5. Do not make up information that isn't in the provided context" +:+ nl
  +:+ nl
  +:+ "Context from PDF documents:" +:+ nl
  +:+ context_text +:+ nl
  +:+ nl
  +:+ "User Question: " +:+ query +:+ nl
  +:+ nl
  +:+ "Please provide a comprehensive answer based on the context above. Include specific citations (document name and page number) for each piece of information you reference.".

(** [create_rag_prompt(query, context_chunks, only_answer_if_sources)] *)
Definition create_rag_prompt (query : string) (context_chunks : list dict)
  (only_answer_if_sources : bool) : result string :=
  match context_chunks, only_answer_if_sources with
  | [], true => Ok NO_SOURCES_TEXT
  | [], false => Ok (prompt_template EmptyString query)
  | _ :: _, _ =>
      match context_blocks context_chunks with
      | Err e => Err e
      | Ok blocks => Ok (prompt_template (join (nl +:+ nl) blocks) query)
      end
  end.

(** One entry of [sources]. *)
Definition source_dict (chunk : dict) : result dict :=
  match getitem chunk "document_id", getitem chunk "filename",
        getitem chunk "page_number", getitem chunk "chunk_index",
        getitem chunk "content", getitem chunk "score" with
  | Ok d, Ok f, Ok p, Ok i, Ok c, Ok s =>
      Ok (<["document_id" := d]>
          (<["document_name" := f]>
          (<["page_number" := p]>
          (<["chunk_index" := i]>
          (<["content" := c]>
          (<["relevance_score" := s]> ∅))))))
  | Err e, _, _, _, _, _ => Err e
  | _, Err e, _, _, _, _ => Err e
  | _, _, Err e, _, _, _ => Err e
  | _, _, _, Err e, _, _ => Err e
  | _, _, _, _, Err e, _ => Err e
  | _, _, _, _, _, Err e => Err e
  end.

Fixpoint source_dicts (chunks : list dict) : result (list dict) :=
  match chunks with
  | [] => Ok []
  | chunk :: rest =>
      match source_dict chunk with
      | Err e => Err e
      | Ok d =>
          match source_dicts rest with
          | Err e => Err e
          | Ok ds => Ok (d :: ds)
          end
      end
  end.

(** The dictionary literal shared by every return of the composer. *)
Definition make_answer (response : string) (sources context_chunks : list dict)
  (response_time_ms tokens_used : Z) : answer :=
  <["response" := FStr response]>
  (<["sources" := FDicts sources]>
  (<["context_chunks" := FDicts context_chunks]>
  (<["response_time_ms" := FInt response_time_ms]>
  (<["tokens_used" := FInt tokens_used]> ∅)))).

Section WithProviders.
Context (P : Providers).

(** [self.model.generate_content(prompt)] followed by [response.text] *)
Definition model_generate (prompt : string) : M string :=
  modify (log (EvGenerate prompt)) ;;;
  lift (generate_content P prompt).

(** [generate_response(query, context_chunks, only_answer_if_sources)] *)
Definition generate_response (query : string) (context_chunks : list dict)
  (only_answer_if_sources : bool) : M answer :=
  start_time <- time_ms P ;;
  try_except
    (prompt <- lift (create_rag_prompt query context_chunks
                       only_answer_if_sources) ;;
     text <- model_generate prompt ;;
     now <- time_ms P ;;
     let response_time_ms := now - start_time in
     sources <- lift (source_dicts context_chunks) ;;
     ret (make_answer text sources context_chunks response_time_ms
            (match text with
             | EmptyString => 0
             | String _ _ => word_count text
             end)))
    (fun e =>
       now <- time_ms P ;;
       ret (make_answer
              ("I encountered an error while generating the response: "
               +:+ str_exn e)
              [] [] (now - start_time) 0)).

(** [answer_question(query, top_k, document_filter, only_answer_if_sources)] *)
Definition answer_question (query : string) (top_k : Z)
  (document_filter : option (list string)) (only_answer_if_sources : bool)
  : M answer :=
  try_except
    (context_chunks <- search_similar_chunks P query top_k document_filter ;;
     generate_response query context_chunks only_answer_if_sources)
    (fun e =>
       ret (make_answer
              ("I encountered an error while processing your question: "
               +:+ str_exn e)
              [] [] 0 0)).

End WithProviders.

End Rag.

(** ** [main.py] and [pdf_processor.py]: deletion, statistics, health *)

Module Admin.
Import PyStr Py Store Qdrant Sys Processor Api.
Local Open Scope py_scope.

(** [db.query(DocumentChunk).filter(DocumentChunk.document_id == i).all()] *)
Definition chunks_of (i : string) (d : Database) : list DocumentChunk :=
  List.filter (fun row => String.eqb (document_id row) i) (stored_chunks d).

(** The row object [document] leaves the table: the first row with its
    identifier. *)
Fixpoint remove_row (i : string) (rows : list Document) : list Document :=
  match rows with
  | [] => []
  | doc :: rest =>
      if String.eqb (id doc) i then rest else doc :: remove_row i rest
  end.

(** [db.delete(document)]: the row goes, and with it (cascade
    [all, delete-orphan]) the chunk rows that belong to it.  The deletion is
    written by the [db.commit()] that follows at once. *)
Definition delete_cascade (document : Document) (d : Database) : Database :=
  {| session_documents := remove_row (id document) (session_documents d);
     session_new_chunks := session_new_chunks d;
     stored_documents := stored_documents d;
     stored_chunks :=
       List.filter (fun row => negb (String.eqb (document_id row) (id document)))
         (stored_chunks d) |}.

Section WithIndexService.
(** How the index service answers: whether deleting a point fails, whether
    scrolling fails, what the approximate count is, and what the collection
    information reports as its point count ([None] when it has no such
    attribute). *)
Context (delete_failure : string -> option exn).
Context (scroll_failure : option exn).
Context (count_reply : gmap string PointStruct -> result Z).
Context (collection_reply : gmap string PointStruct -> result (option Z)).

(** [qdrant_client.delete(points_selector=[vector_id])] *)
Definition qdrant_delete (vector_id : string) : M unit :=
  match delete_failure vector_id with
  | Some e => raise e
  | None => modify (with_index (fun m => delete vector_id m))
  end.

(** The loop over [chunks]: a failed deletion is logged and skipped. *)
Fixpoint delete_vectors (chunks : list DocumentChunk) : M unit :=
  match chunks with
  | [] => ret tt
  | chunk :: rest =>
      try_except (qdrant_delete (vector_id chunk)) (fun _ => ret tt) ;;;
      delete_vectors rest
  end.

(** [delete_document(document_id, db)] *)
Definition delete_document (document_id : string) : M string :=
  w <- get ;;
  match first_by_id (db w) document_id with
  | None => raise (HTTPException 404 "Document not found")
  | Some document =>
      try_except
        (delete_vectors (chunks_of document_id (db w)) ;;;
         let file_path := UPLOAD_DIR +:+ "/" +:+ filename document in
         modify (with_files (fun fs => delete file_path fs)) ;;;
         modify (with_db (delete_cascade document)) ;;;
         db_commit ;;;
         ret "Document deleted successfully")
        (fun _ => raise (HTTPException 500 "Error deleting document"))
  end.

Definition stats (points_count : Z) : dict :=
  <["total_chunks" := SInt points_count]>
  (<["vector_dimension" := SInt 384]> ∅).

(** [qdrant_client.scroll(limit=1)]: the first page of points. *)
Definition qdrant_scroll : M (list PointStruct) :=
  match scroll_failure with
  | Some e => raise e
  | None => w <- get ;; ret (take 1 (map snd (map_to_list (index w))))
  end.

(** [get_document_stats()] *)
Definition get_document_stats : M dict :=
  try_except
    (try_except
       (page <- qdrant_scroll ;;
        match page with
        | [] => ret (stats 0)
        | _ :: _ =>
            points_count <-
              try_except (w <- get ;; lift (count_reply (index w)))
                (fun _ => ret 0) ;;
            ret (stats points_count)
        end)
       (fun _ =>
          w <- get ;;
          info <- lift (collection_reply (index w)) ;;
          ret (stats (match info with Some n => n | None => 0 end))))
    (fun _ => ret (stats 0)).

(** The values of the dictionary returned by [health_check]. *)
Definition health_report (status : string) (fields : list (string * scalar))
  : dict :=
  <["status" := SStr status]> (list_to_map fields).

(** [health_check()] *)
Definition health_check : M dict :=
  try_except
    (st <- get_document_stats ;;
     ret (health_report "healthy"
            [("database", SStr "connected");
             ("vector_db", SStr "connected");
             ("total_chunks",
              match st !! "total_chunks" with
              | Some v => v
              | None => SInt 0
              end)]))
    (fun e => ret (health_report "unhealthy" [("error", SStr (str_exn e))])).

End WithIndexService.

End Admin.

(** ** Vocabulary of the properties *)

Module Props.
Import PyStr Py Store Qdrant Sys Processor Api.

(** [sub] occurs in [t] at index [i]. *)
Definition occurs_at (t sub : text) (i : Z) : Prop :=
  0 <= i /\ take (length sub) (drop (Z.to_nat i) t) = sub.

(** The occurrence at [i] lies wholly inside the window [[lo, hi)]. *)
Definition in_window (lo hi : Z) (sub : text) (i : Z) : Prop :=
  lo <= i /\ i + len sub <= hi.

Definition last_in_window (t sub : text) (lo hi i : Z) : Prop :=
  occurs_at t sub i /\ in_window lo hi sub i /\
  forall j, occurs_at t sub j -> in_window lo hi sub j -> j <= i.

Definition absent_in_window (t sub : text) (lo hi : Z) : Prop :=
  forall j, occurs_at t sub j -> ~ in_window lo hi sub j.

(** The boundary the specification prescribes for a window [[lo, hi)] whose
    raw cut is [raw]: just after the mark of the last period-space; failing
    that, of the last exclamation-space; failing that, of the last
    question-space; failing that, the raw cut. *)
Inductive snapped (t : text) (lo hi raw : Z) : Z -> Prop :=
| snap_period i :
    last_in_window t (lit ". ") lo hi i -> snapped t lo hi raw (i + 1)
| snap_exclamation i :
    absent_in_window t (lit ". ") lo hi ->
    last_in_window t (lit "! ") lo hi i -> snapped t lo hi raw (i + 1)
| snap_question i :
    absent_in_window t (lit ". ") lo hi ->
    absent_in_window t (lit "! ") lo hi ->
    last_in_window t (lit "? ") lo hi i -> snapped t lo hi raw (i + 1)
| snap_raw :
    absent_in_window t (lit ". ") lo hi ->
    absent_in_window t (lit "! ") lo hi ->
    absent_in_window t (lit "? ") lo hi -> snapped t lo hi raw raw.



(** The shape of an [AnswerResult]: answer text, sources, elapsed time and
    token estimate are all present. *)
Definition shaped (a : answer) : Prop :=
  exists text sources ms tokens,
    a !! "response" = Some (FStr text) /\
    a !! "sources" = Some (FDicts sources) /\
    a !! "response_time_ms" = Some (FInt ms) /\
    a !! "tokens_used" = Some (FInt tokens).

(** A degraded answer for the failure [e]: the text describes [e] and there
    are no sources. *)
Definition degraded (a : answer) (e : exn) : Prop :=
  (exists prefix, a !! "response" = Some (FStr (prefix +:+ str_exn e))) /\
  a !! "sources" = Some (FDicts []).

(** The world with its count of drawn identifiers replaced. *)
Definition set_uuids (n : nat) (w : world) : world :=
  {| db := db w; index := index w; files := files w; tasks := tasks w;
     uuids_drawn := n; clock_reads := clock_reads w; trace := trace w |}.

(** The world after [db.add] of each of [rows]. *)
Definition rows_added (rows : list DocumentChunk) (w : world) : world :=
  {| db := {| session_documents := session_documents (db w);
              session_new_chunks := session_new_chunks (db w) ++ rows;
              stored_documents := stored_documents (db w);
              stored_chunks := stored_chunks (db w) |};
     index := index w; files := files w; tasks := tasks w;
     uuids_drawn := uuids_drawn w; clock_reads := clock_reads w;
     trace := trace w ++ map EvAdd rows |}.

(** The world after [process_pdf] has marked the document as being
    processed and committed. *)
Definition started (document_id : string) (w : world) : world :=
  log (EvCommit (session_new_chunks (db w)))
    (with_db commit
       (with_db (update_document (set_status "processing") document_id) w)).

(** The world after the handler of [process_pdf] has recorded [e]. *)
Definition failed (document_id : string) (e : exn) (w : world) : world :=
  log (EvCommit (session_new_chunks (db w)))
    (with_db commit
       (with_db (update_document (set_error_message (str_exn e)) document_id)
          (with_db (update_document (set_status "failed") document_id) w))).

(** The world after the last assignments and the last commit. *)
Definition completed (document_id : string) (n : Z) (w : world) : world :=
  log (EvCommit (session_new_chunks (db w)))
    (with_db commit
       (with_db (update_document (set_chunk_count n) document_id)
          (with_db (update_document (set_status "completed") document_id) w))).

(** The events of a run of [process_pdf] that completes, and of one that
    fails after the document was found; [pending] are the rows the session
    held before the run. *)
Definition success_trace (pending : list DocumentChunk)
  (points : list PointStruct) (rows : list DocumentChunk) : list event :=
  [EvCommit pending; EvUpsert points] ++ map EvAdd rows ++ [EvCommit rows].

Definition failure_trace (pending : list DocumentChunk) : list event :=
  [EvCommit pending; EvCommit []].

(** The event inserts or commits the chunk row. *)
Definition writes_row (ev : event) (row : DocumentChunk) : Prop :=
  match ev with
  | EvAdd r => r = row
  | EvCommit flushed => In row flushed
  | _ => False
  end.

Definition is_upsert (ev : event) : bool :=
  match ev with EvUpsert _ => true | _ => false end.

(** Every event of [tr] that inserts or commits a chunk row other than the
    [pending] ones comes after an upsert. *)
Definition upsert_precedes (pending : list DocumentChunk) (tr : list event)
  : Prop :=
  forall (i : nat) ev row,
    tr !! i = Some ev -> writes_row ev row ->
    In row pending \/
    exists (j : nat) points, (j < i)%nat /\ tr !! j = Some (EvUpsert points).

(** The same, and the upsert carries the row's vector. *)
Definition upsert_covers (pending : list DocumentChunk) (tr : list event)
  : Prop :=
  forall (i : nat) ev row,
    tr !! i = Some ev -> writes_row ev row ->
    In row pending \/
    exists (j : nat) points,
      (j < i)%nat /\ tr !! j = Some (EvUpsert points) /\
      In (vector_id row) (map point_id points).

(** The embedding model returns one vector per text. *)
Definition one_vector_per_text (P : Providers) : Prop :=
  forall texts vectors,
    encode P texts = Ok vectors -> length vectors = length texts.





End Props.

(** ** Vocabulary of the further properties *)

Module MoreProps.
Import PyStr Py Store Qdrant Sys Processor Api Rag Admin Props.

(** No sentence-ending mark followed by a space occurs anywhere in [t]. *)
Definition no_sentence_end (t : text) : Prop :=
  forall p i, In p Chunker.sentence_endings -> ~ occurs_at t p i.

(** What holds of [all_chunks] and [chunk_metadata] at every point of the
    loops of [process_pdf], for a run that started with [n0] identifiers
    drawn: they have the same length, one identifier was drawn per entry, and
    the [j]-th entry has ordinal [j], the [j]-th identifier drawn, the [j]-th
    text, and the document's identifier. *)
Definition chunk_metas_ok (P : Providers) (document_id : string) (n0 : nat)
  (acc : list string * list ChunkMeta) (w : world) : Prop :=
  length (fst acc) = length (snd acc) /\
  uuids_drawn w = (n0 + length (snd acc))%nat /\
  forall (j : nat) m,
    snd acc !! j = Some m ->
    meta_chunk_index m = Z.of_nat j /\
    chunk_uuid m = uuid4 P (n0 + j) /\
    fst acc !! j = Some (meta_content m) /\
    meta_document_id m = document_id.

(** The payload fields copied into a search result. *)
Definition payload_keys : list string :=
  ["document_id"; "page_number"; "chunk_index"; "content"; "filename"].

(** [sub in s] *)
Definition contains (s sub : string) : Prop :=
  exists pre post, s = pre +:+ sub +:+ post.

(** The keys [create_rag_prompt] reads from a context chunk, and the keys
    [generate_response] reads to build a source. *)
Definition prompt_keys : list string := ["filename"; "page_number"; "content"].

Definition source_keys : list string :=
  ["document_id"; "filename"; "page_number"; "chunk_index"; "content"; "score"].

(** Nothing but the clock and the trace differs between the two worlds. *)
Definition same_stores (w w' : world) : Prop :=
  db w' = db w /\ index w' = index w /\ files w' = files w /\
  tasks w' = tasks w /\ uuids_drawn w' = uuids_drawn w.

(** The index after the deletion loop over [rows]: the vector of a row goes
    unless the index service fails on it. *)
Definition vectors_deleted (delete_failure : string -> option exn)
  (rows : list DocumentChunk) (m : gmap string PointStruct)
  : gmap string PointStruct :=
  foldl (fun m row =>
           match delete_failure (vector_id row) with
           | Some _ => m
           | None => delete (vector_id row) m
           end) m rows.

(** The world after [delete_document] has removed [document]. *)
Definition document_deleted (delete_failure : string -> option exn)
  (document : Document) (w : world) : world :=
  log (EvCommit (session_new_chunks (db w)))
    (with_db commit
       (with_db (delete_cascade document)
          (with_files
             (fun fs => delete (UPLOAD_DIR +:+ "/" +:+ filename document) fs)
             (with_index
                (vectors_deleted delete_failure (chunks_of (id document) (db w)))
                w)))).

End MoreProps.

(** ** Concrete inputs *)

Module Demo.
Import PyStr Py Store Qdrant Sys Processor Api.

(** The text of [test_chunk_text] in [tests/test_pdf_processor.py], chunked
    there with [chunk_size=30, overlap=10]. *)
Definition test_text : text :=
  lit "This is a test. This is another sentence. And here's a third one.".

(** Twenty-five letters and no punctuation. *)
Definition letters : text := lit "aaaaaaaaaaaaaaaaaaaaaaaaa".

(** A page under the default configuration: 199 letters, a period, a space
    and 1000 more letters. *)
Definition long_page : text :=
  repeat "a"%char 199 ++ lit ". " ++ repeat "b"%char 1000.


(** Collaborators that never fail: identifiers [id-0], [id-1], ...; a clock
    that advances one second per reading; a reader that returns the file as
    one page of text; one-dimensional embeddings. *)
Definition providers : Providers :=
  {| uuid4 := fun n => "id-" +:+ str_int (Z.of_nat n);
     now_ms := fun n => 1000 * Z.of_nat n;
     sha256_hexdigest := fun bytes => "sha256:" +:+ string_of_list_byte bytes;
     pdf_pages := fun bytes => Ok [string_of_list_byte bytes];
     encode := fun texts => Ok (map (fun s => [str_len s]) texts);
     similarity := fun u v => - Z.abs (hd 0 u - hd 0 v);
     upsert_failure := fun _ => None;
     search_failure := fun _ => None;
     generate_content := fun _ => Ok "Paris is the capital of France." |}.

Definition empty_db : Database :=
  {| session_documents := []; session_new_chunks := [];
     stored_documents := []; stored_chunks := [] |}.

Definition empty_world : world :=
  {| db := empty_db; index := ∅; files := ∅; tasks := [];
     uuids_drawn := 0; clock_reads := 0; trace := [] |}.

Definition document_named (i name : string) : Document :=
  {| id := i; Store.filename := i +:+ "_" +:+ name;
     original_filename := name; file_size := 10;
     content_hash := "sha256:" +:+ i; page_count := Some 1;
     processing_status := "completed"; error_message := None;
     chunk_count := 1 |}.

Definition point_of (uuid doc name body : string) : PointStruct :=
  make_point doc (document_named doc name)
    ({| chunk_uuid := uuid; chunk_id := doc +:+ "_1_0";
        meta_document_id := doc; meta_page_number := 1;
        meta_chunk_index := 0; meta_content := body |}, [str_len body]).

(** An index holding one chunk of document [A] and one of document [B]. *)
Definition two_documents : world :=
  with_index
    (fun m => upsert m [point_of "u-a" "A" "a.pdf" "Alpha text.";
                        point_of "u-b" "B" "b.pdf" "Beta text."])
    empty_world.

(** A one-page file uploaded under the name [report.pdf]. *)
Definition report : UploadFile :=
  {| upload_filename := "report.pdf";
     upload_size := 17;
     upload_content := list_byte_of_string "Revenue grew 10%." |}.

Definition first_upload : outcome DocumentUploadResponse :=
  upload_document providers report empty_world.


Definition uploaded_world : world :=
  match first_upload with
  | Returns _ w => w
  | _ => empty_world
  end.

(** The world after the background task of the first upload has run. *)
Definition ingested_world : world :=
  match process_pdf providers 0 "uploads/id-0_report.pdf" "id-0"
          uploaded_world with
  | Returns _ w => w
  | _ => uploaded_world
  end.

(** The same collaborators with identifiers [x], [xx], [xxx], ... *)
Definition unary_ids : Providers :=
  {| uuid4 := fun n => string_of_list_ascii (repeat "x"%char (S n));
     now_ms := now_ms providers;
     sha256_hexdigest := sha256_hexdigest providers;
     pdf_pages := pdf_pages providers;
     encode := encode providers;
     similarity := similarity providers;
     upsert_failure := upsert_failure providers;
     search_failure := search_failure providers;
     generate_content := generate_content providers |}.


(** A search result for page 3 of [a.pdf]. *)
Definition revenue_chunk : dict :=
  <["id" := SStr "u-1"]>
  (<["score" := SFloat 9]>
  (<["document_id" := SStr "d-1"]>
  (<["page_number" := SInt 3]>
  (<["chunk_index" := SInt 0]>
  (<["content" := SStr "Revenue grew 10%."]>
  (<["filename" := SStr "a.pdf"]> ∅)))))).

(** The same without its score, as in the chunks of
    [test_create_rag_prompt_with_context]. *)
Definition unscored_chunk : dict := delete "score" revenue_chunk.

(** Collaborators whose embedding model is down. *)
Definition no_embeddings : Providers :=
  {| uuid4 := uuid4 providers;
     now_ms := now_ms providers;
     sha256_hexdigest := sha256_hexdigest providers;
     pdf_pages := pdf_pages providers;
     encode := fun _ => Err (ExternalError "model not loaded");
     similarity := similarity providers;
     upsert_failure := upsert_failure providers;
     search_failure := search_failure providers;
     generate_content := generate_content providers |}.

(** Two extracted pages. *)
Definition two_pages : list Page :=
  [{| page_no := 1; content := "Alpha text." |};
   {| page_no := 3; content := "Gamma text." |}].

End Demo.
(** ** Facts about the string primitives *)

Module PyStrFacts.
Import PyStr.

Lemma lstrip_split (t : text) :
  exists p, t = p ++ lstrip t /\ Forall (fun c => isspace c = true) p.
Proof.
  induction t as [|c t IH]; simpl.
  - exists []. split; [reflexivity | constructor].
  - destruct (isspace c) eqn:E.
    + destruct IH as (p & Hp & Hall). exists (c :: p). split.
      * simpl. congruence.
      * constructor; assumption.
    + exists []. split; [reflexivity | constructor].
Qed.









End PyStrFacts.

Module RfindFacts.
Import PyStr Props.

Lemma startswith_take (sub t : text) :
  startswith t sub = true <-> take (length sub) t = sub.
Proof.
  revert t. induction sub as [|c sub IH]; intros t; simpl.
  - destruct t; split; reflexivity.
  - destruct t as [|d t]; simpl.
    + split; discriminate.
    + rewrite andb_true_iff, IH. split.
      * intros [Hc Ht]. apply Ascii.eqb_eq in Hc. congruence.
      * intros [= -> Ht]. split; [apply Ascii.eqb_refl | exact Ht].
Qed.

Lemma adjust_find_start_nonneg (n i : Z) : 0 <= adjust_find_start n i.
Proof. unfold adjust_find_start. destruct (Z.ltb_spec i 0); lia. Qed.

(** The scan returns the highest matching candidate of [[lo, lo + k)]. *)
Lemma rfind_scan_spec (t sub : text) (lo : Z) (k : nat) :
  0 <= lo ->
  (rfind_scan t sub lo k = -1 /\
   forall i, lo <= i < lo + Z.of_nat k -> ~ occurs_at t sub i)
  \/
  (lo <= rfind_scan t sub lo k < lo + Z.of_nat k /\
   occurs_at t sub (rfind_scan t sub lo k) /\
   forall i, rfind_scan t sub lo k < i < lo + Z.of_nat k ->
             ~ occurs_at t sub i).
Proof.
  intros Hlo. induction k as [|k IH].
  - left. split; [reflexivity | intros i Hi; lia].
  - cbn [rfind_scan].
    destruct (startswith (drop (Z.to_nat (lo + Z.of_nat k)) t) sub) eqn:E.
    + right. split; [lia|]. split.
      * split; [lia | apply startswith_take, E].
      * intros i Hi. lia.
    + assert (Hno : ~ occurs_at t sub (lo + Z.of_nat k)).
      { intros [_ Hocc]. apply startswith_take in Hocc. congruence. }
      destruct IH as [[Hr Habs] | (Hr & Hocc & Habs)].
      * left. split; [exact Hr|]. intros i Hi.
        destruct (Z.eq_dec i (lo + Z.of_nat k)) as [->|Hne];
          [exact Hno | apply Habs; lia].
      * right. split; [lia|]. split; [exact Hocc|]. intros i Hi.
        destruct (Z.eq_dec i (lo + Z.of_nat k)) as [->|Hne];
          [exact Hno | apply Habs; lia].
Qed.

Lemma rfind_absent (t sub : text) (start stop : Z) :
  rfind t sub start stop = -1 ->
  absent_in_window t sub (adjust_find_start (len t) start)
    (adjust_find_end (len t) stop).
Proof.
  unfold rfind. intros Hr j Hocc [Hlo Hhi].
  pose proof (adjust_find_start_nonneg (len t) start) as Hnn.
  destruct (rfind_scan_spec t sub _
              (Z.to_nat (adjust_find_end (len t) stop - len sub
                         - adjust_find_start (len t) start + 1)) Hnn)
    as [[_ Habs] | (Hrange & _)].
  - apply (Habs j); [lia | exact Hocc].
  - lia.
Qed.

Lemma rfind_found (t sub : text) (start stop : Z) :
  rfind t sub start stop <> -1 ->
  last_in_window t sub (adjust_find_start (len t) start)
    (adjust_find_end (len t) stop) (rfind t sub start stop).
Proof.
  unfold rfind. intros Hr.
  pose proof (adjust_find_start_nonneg (len t) start) as Hnn.
  destruct (rfind_scan_spec t sub _
              (Z.to_nat (adjust_find_end (len t) stop - len sub
                         - adjust_find_start (len t) start + 1)) Hnn)
    as [[Hm _] | (Hrange & Hocc & Habs)]; [contradiction|].
  split; [exact Hocc|]. split.
  - unfold in_window. lia.
  - intros j Hj [Hlo Hhi].
    destruct (Z_le_gt_dec j
                (rfind_scan t sub (adjust_find_start (len t) start)
                   (Z.to_nat (adjust_find_end (len t) stop - len sub
                              - adjust_find_start (len t) start + 1))))
      as [Hle|Hgt]; [exact Hle|].
    exfalso. apply (Habs j); [lia | exact Hj].
Qed.

End RfindFacts.

(** ** The chunker *)

Module ChunkerFacts.
Import PyStr Chunker Props PyStrFacts RfindFacts Demo.

Lemma break_at_snapped (t : text) (start end_ : Z) :
  snapped t (adjust_find_start (len t) start) (adjust_find_end (len t) end_)
    end_ (break_at t start end_ sentence_endings).
Proof.
  unfold sentence_endings. cbn [break_at].
  destruct (Z.eqb_spec (rfind t (lit ". ") start end_) (-1)) as [E1|E1].
  - apply rfind_absent in E1.
    destruct (Z.eqb_spec (rfind t (lit "! ") start end_) (-1)) as [E2|E2].
    + apply rfind_absent in E2.
      destruct (Z.eqb_spec (rfind t (lit "? ") start end_) (-1)) as [E3|E3].
      * apply rfind_absent in E3. apply snap_raw; assumption.
      * apply snap_question; [assumption | assumption |].
        apply rfind_found, E3.
    + apply snap_exclamation; [assumption |]. apply rfind_found, E2.
  - apply snap_period. apply rfind_found, E1.
Qed.









(** *** Runs that never leave the loop *)

Lemma halted_unfold (t : text) (s : state) : halted t s = (len t <=? start s).
Proof. reflexivity. Qed.

(** If an iteration started at [a] ends at [a] again, the loop is never
    left. *)
Lemma run_stalls (t : text) (cs ov a : Z) :
  a < len t ->
  (forall c, start (step t cs ov {| start := a; chunks := c |}) = a) ->
  forall fuel c, start (run fuel t cs ov {| start := a; chunks := c |}) = a.
Proof.
  intros Ha Hstep fuel. induction fuel as [|fuel IH]; intros c; [reflexivity|].
  cbn [run]. rewrite halted_unfold. cbn [start].
  destruct (Z.leb_spec (len t) a); [lia|].
  specialize (Hstep c).
  destruct (step t cs ov {| start := a; chunks := c |}) as [a' c'].
  cbn [start] in Hstep. subst a'. apply IH.
Qed.

Lemma step_start (t : text) (cs ov : Z) (s : state) :
  start (step t cs ov s)
  = if window_end t cs (start s) <? len t
    then window_end t cs (start s) - ov else len t.
Proof. reflexivity. Qed.

(** C2: on the text and the configuration of the repository's own
    [test_chunk_text] the loop of [chunk_text] is never left: from the second
    iteration on, every window starts at index 5 and ends just after the
    first period, so no number of iterations produces a result. *)
Theorem chunk_text_test_input_never_returns :
  forall fuel, chunk_text fuel test_text (Some 30) (Some 10) = None.
Proof.
  intros fuel. unfold chunk_text.
  change (len test_text <=? py_or (Some 30) CHUNK_SIZE) with false.
  cbv iota. change (py_or (Some 30) CHUNK_SIZE) with 30.
  change (py_or (Some 10) CHUNK_OVERLAP) with 10.
  assert (Hstall : forall n c,
             start (run n test_text 30 10 {| start := 5; chunks := c |}) = 5).
  { apply run_stalls; [reflexivity|]. intros c. rewrite step_start.
    reflexivity. }
  rewrite halted_unfold. destruct fuel as [|fuel]; [reflexivity|].
  cbn [run]. change (halted test_text init) with false. cbv iota.
  destruct (step test_text 30 10 init) as [a c] eqn:E.
  assert (Ha : a = 5).
  { change a with (start {| start := a; chunks := c |}). rewrite <- E.
    reflexivity. }
  subst a. rewrite Hstall. reflexivity.
Qed.

(** The same happens without any punctuation when the overlap is not smaller
    than the chunk size: the configuration is neither rejected nor clamped. *)
Lemma chunk_text_overlap_equal_size_never_returns :
  forall fuel, chunk_text fuel letters (Some 10) (Some 10) = None.
Proof.
  intros fuel. unfold chunk_text.
  change (len letters <=? py_or (Some 10) CHUNK_SIZE) with false.
  cbv iota. change (py_or (Some 10) CHUNK_SIZE) with 10.
  change (py_or (Some 10) CHUNK_OVERLAP) with 10.
  rewrite halted_unfold. unfold init.
  rewrite (run_stalls letters 10 10 0); [reflexivity | reflexivity |].
  intros c. rewrite step_start. reflexivity.
Qed.

(** And under the default configuration (1000, 200) on a page whose only
    sentence end of the first window is at index 199. *)
Lemma chunk_text_default_configuration_never_returns :
  forall fuel, chunk_text fuel long_page None None = None.
Proof.
  intros fuel. unfold chunk_text.
  assert (Hlen : len long_page = 1201) by (vm_compute; reflexivity).
  change (py_or None CHUNK_SIZE) with 1000.
  change (py_or None CHUNK_OVERLAP) with 200.
  rewrite Hlen. change (1201 <=? 1000) with false. cbv iota.
  rewrite halted_unfold, Hlen. unfold init.
  rewrite (run_stalls long_page 1000 200 0); [reflexivity | lia |].
  intros c. rewrite step_start. cbn [start].
  assert (Hw : window_end long_page 1000 0 = 200) by (vm_compute; reflexivity).
  rewrite Hw, Hlen. reflexivity.
Qed.

End ChunkerFacts.

(** ** Search and its document filter *)

Module SearchFacts.
Import PyStr Py Store Qdrant Sys Processor Demo.

Lemma search_nothing_passes (sim : vector -> vector -> score)
  (points : gmap string PointStruct) (qv : vector) (f : option Filter)
  (limit : Z) :
  (forall pt, passes f pt = false) -> search sim points qv f limit = [].
Proof.
  intros Hno. unfold search.
  assert (E : List.filter (passes f) (map snd (map_to_list points)) = []).
  { induction (map snd (map_to_list points)) as [|pt l IH]; [reflexivity|].
    simpl. rewrite Hno. exact IH. }
  rewrite E. simpl. apply take_nil.
Qed.

Lemma condition_on_document_id (p : dict) (doc_id : string) :
  condition_holds p {| key := "document_id"; match_value := SStr doc_id |} = true
  <-> p !! "document_id" = Some (SStr doc_id).
Proof.
  unfold condition_holds. cbn [key match_value].
  destruct (p !! "document_id") as [v|]; [|split; discriminate].
  destruct v as [s|n|x]; cbn [scalar_eqb]; try (split; discriminate).
  rewrite String.eqb_eq. split; [intros ->; reflexivity | intros [= ->]; reflexivity].
Qed.

(** The filter built by [search_similar_chunks] keeps a point exactly when
    its [document_id] equals every identifier of the list. *)
Lemma make_filter_is_conjunction (ids : list string) (pt : PointStruct) :
  ids <> [] ->
  passes (make_filter (Some ids)) pt = true
  <-> forall doc_id, In doc_id ids ->
                     payload pt !! "document_id" = Some (SStr doc_id).
Proof.
  intros Hne. destruct ids as [|i ids]; [congruence|].
  unfold make_filter, passes. cbn [must should]. rewrite andb_true_r.
  rewrite forallb_forall. split.
  - intros H doc_id Hin. apply condition_on_document_id. apply H.
    apply in_map_iff. exists doc_id. split; [reflexivity | exact Hin].
  - intros H c Hc. apply in_map_iff in Hc. destruct Hc as (doc_id & <- & Hin).
    apply condition_on_document_id, H, Hin.
Qed.

Lemma make_filter_two_ids_rejects (ids : list string) (a b : string)
  (pt : PointStruct) :
  In a ids -> In b ids -> a <> b -> passes (make_filter (Some ids)) pt = false.
Proof.
  intros Ha Hb Hab. destruct (passes (make_filter (Some ids)) pt) eqn:E;
    [|reflexivity].
  assert (Hne : ids <> []) by (intros ->; inversion Ha).
  destruct (make_filter_is_conjunction ids pt Hne) as [Hall _].
  specialize (Hall E).
  pose proof (Hall a Ha) as Ea. pose proof (Hall b Hb) as Eb. congruence.
Qed.

(** Whatever the index holds, a filter naming two different documents makes
    the search return nothing. *)
Lemma search_similar_chunks_two_ids_empty (P : Providers) (query : string)
  (top_k : Z) (ids : list string) (a b : string) (w : world) (v : vector)
  (vs : list vector) :
  In a ids -> In b ids -> a <> b ->
  encode P [query] = Ok (v :: vs) -> search_failure P v = None ->
  search_similar_chunks P query top_k (Some ids) w = Returns [] w.
Proof.
  intros Ha Hb Hab Henc Hsearch.
  assert (Hs : search (similarity P) (index w) v (make_filter (Some ids)) top_k
               = []).
  { apply search_nothing_passes. intros pt.
    exact (make_filter_two_ids_rejects ids a b pt Ha Hb Hab). }
  unfold search_similar_chunks, bind, lift. rewrite Henc.
  unfold ret, qdrant_search, bind. rewrite Hsearch.
  unfold get, ret. rewrite Hs. reflexivity.
Qed.

(** C1, evaluated: over an index holding a chunk of document [A] and a chunk
    of document [B], the filter [[A]] returns the chunk of [A] and the filter
    [[B]] the chunk of [B], but the filter [[A; B]] returns nothing: the
    conditions are joined by [must], so a point has to belong to [A] and to
    [B] at once. *)
Theorem search_filter_two_documents_returns_nothing :
  search_similar_chunks providers "text" 5 (Some ["A"; "B"]) two_documents
  = Returns [] two_documents
  /\ match search_similar_chunks providers "text" 5 (Some ["A"]) two_documents with
     | Returns [hit] _ => hit !! "document_id" = Some (SStr "A")
     | _ => False
     end
  /\ match search_similar_chunks providers "text" 5 (Some ["B"]) two_documents with
     | Returns [hit] _ => hit !! "document_id" = Some (SStr "B")
     | _ => False
     end
  /\ match search_similar_chunks providers "text" 5 None two_documents with
     | Returns [_; _] _ => True
     | _ => False
     end.
Proof.
  split; [| split; [| split]].
  - apply (search_similar_chunks_two_ids_empty providers "text" 5
             ["A"; "B"] "A" "B" two_documents [4] []);
      [left; reflexivity | right; left; reflexivity | discriminate
      | reflexivity | reflexivity].
  - vm_compute. reflexivity.
  - vm_compute. reflexivity.
  - vm_compute. exact I.
Qed.

End SearchFacts.

(** ** The answer composer *)

Module RagFacts.
Import PyStr Py Store Qdrant Sys Processor Rag Props Demo.

Lemma make_answer_fields (r : string) (s c : list dict) (t n : Z) :
  make_answer r s c t n !! "response" = Some (FStr r) /\
  make_answer r s c t n !! "sources" = Some (FDicts s) /\
  make_answer r s c t n !! "context_chunks" = Some (FDicts c) /\
  make_answer r s c t n !! "response_time_ms" = Some (FInt t) /\
  make_answer r s c t n !! "tokens_used" = Some (FInt n).
Proof. unfold make_answer. repeat split; by simplify_map_eq. Qed.

Lemma make_answer_shaped (r : string) (s c : list dict) (t n : Z) :
  shaped (make_answer r s c t n).
Proof.
  destruct (make_answer_fields r s c t n) as (H1 & H2 & _ & H4 & H5).
  exists r, s, t, n. auto.
Qed.

Lemma make_answer_degraded (prefix : string) (e : exn) (t : Z) :
  degraded (make_answer (prefix +:+ str_exn e) [] [] t 0) e.
Proof.
  destruct (make_answer_fields (prefix +:+ str_exn e) [] [] t 0)
    as (H1 & H2 & _).
  split; [exists prefix; exact H1 | exact H2].
Qed.

(** The search either returns or raises, and leaves the world as it was. *)
Lemma search_similar_chunks_outcome (P : Providers) (q : string) (k : Z)
  (f : option (list string)) (w : world) :
  (exists chunks, search_similar_chunks P q k f w = Returns chunks w)
  \/ (exists e, search_similar_chunks P q k f w = Raises e w).
Proof.
  unfold search_similar_chunks, bind, lift.
  destruct (encode P [q]) as [[|v vs]|e]; cbn; [right; eauto | | right; eauto].
  unfold qdrant_search. destruct (search_failure P v) as [e|]; cbn;
    [right; eauto|].
  destruct (hit_dicts _) as [ds|e]; cbn; [left | right]; eauto.
Qed.

Lemma search_similar_chunks_encode_fails (P : Providers) (q : string) (k : Z)
  (f : option (list string)) (w : world) (e : exn) :
  encode P [q] = Err e -> search_similar_chunks P q k f w = Raises e w.
Proof.
  intros H. unfold search_similar_chunks, bind, lift. rewrite H. reflexivity.
Qed.

Lemma search_similar_chunks_search_fails (P : Providers) (q : string) (k : Z)
  (f : option (list string)) (w : world) (v : vector) (vs : list vector)
  (e : exn) :
  encode P [q] = Ok (v :: vs) -> search_failure P v = Some e ->
  search_similar_chunks P q k f w = Raises e w.
Proof.
  intros H1 H2. unfold search_similar_chunks, bind, lift. rewrite H1. cbn.
  unfold qdrant_search. rewrite H2. reflexivity.
Qed.

(** [generate_response] returns on every input, and a failed prompt
    construction or generation call gives a degraded answer. *)
Lemma generate_response_returns (P : Providers) (q : string)
  (chunks : list dict) (only : bool) (w : world) :
  exists a w',
    generate_response P q chunks only w = Returns a w' /\ shaped a /\
    (forall prompt e,
        create_rag_prompt q chunks only = Ok prompt ->
        generate_content P prompt = Err e -> degraded a e).
Proof.
  unfold generate_response, bind, try_except, time_ms, lift, model_generate,
    modify, bind.
  destruct (create_rag_prompt q chunks only) as [prompt|e0] eqn:Ep; cbn.
  - destruct (generate_content P prompt) as [text|e1] eqn:Eg; cbn.
    + destruct (source_dicts chunks) as [srcs|e2]; cbn.
      * eexists _, _. split; [reflexivity|]. split; [apply make_answer_shaped|].
        intros prompt' e [= <-]. congruence.
      * eexists _, _. split; [reflexivity|]. split; [apply make_answer_shaped|].
        intros prompt' e [= <-]. congruence.
    + eexists _, _. split; [reflexivity|]. split; [apply make_answer_shaped|].
      intros prompt' e [= <-] He. rewrite Eg in He. injection He as <-.
      apply make_answer_degraded.
  - eexists _, _. split; [reflexivity|]. split; [apply make_answer_shaped|].
    intros prompt' e [=].
Qed.

(** C6: [answer_question] returns an answer on every input and for every
    behaviour of the collaborators; the answer carries its text, its
    sources, the elapsed time and the token estimate; and when the embedding
    step, the index search or the generation call fails, the text describes
    the failure and the sources are empty. *)
Theorem answer_question_always_answers (P : Providers) (q : string) (k : Z)
  (f : option (list string)) (only : bool) (w : world) :
  exists a w',
    answer_question P q k f only w = Returns a w' /\ shaped a /\
    (forall e, encode P [q] = Err e -> degraded a e) /\
    (forall v vs e, encode P [q] = Ok (v :: vs) ->
                    search_failure P v = Some e -> degraded a e) /\
    (forall chunks prompt e,
        search_similar_chunks P q k f w = Returns chunks w ->
        create_rag_prompt q chunks only = Ok prompt ->
        generate_content P prompt = Err e -> degraded a e).
Proof.
  unfold answer_question, try_except, bind.
  destruct (search_similar_chunks_outcome P q k f w) as [[chunks E]|[e E]];
    rewrite E.
  - destruct (generate_response_returns P q chunks only w)
      as (a & w' & Hrun & Hshape & Hgen).
    rewrite Hrun. exists a, w'. split; [reflexivity|]. split; [exact Hshape|].
    split; [|split].
    + intros e He.
      rewrite (search_similar_chunks_encode_fails P q k f w e He) in E.
      discriminate.
    + intros v vs e He Hs.
      rewrite (search_similar_chunks_search_fails P q k f w v vs e He Hs) in E.
      discriminate.
    + intros chunks' prompt e [= <-]. apply Hgen.
  - cbn. eexists _, _. split; [reflexivity|].
    split; [apply make_answer_shaped|]. split; [|split].
    + intros e' He.
      rewrite (search_similar_chunks_encode_fails P q k f w e' He) in E.
      injection E as <-. apply make_answer_degraded.
    + intros v vs e' He Hs.
      rewrite (search_similar_chunks_search_fails P q k f w v vs e' He Hs) in E.
      injection E as <-. apply make_answer_degraded.
    + intros chunks prompt e' [=].
Qed.

(** With no context and sources required, the text meant for the user is
    handed to the model as the prompt, and the model's reply is the answer. *)
Lemma generate_response_no_sources_calls_model (P : Providers) (q text : string)
  (w : world) :
  generate_content P NO_SOURCES_TEXT = Ok text ->
  exists a w',
    generate_response P q [] true w = Returns a w' /\
    a !! "response" = Some (FStr text) /\
    trace w' = trace w ++ [EvGenerate NO_SOURCES_TEXT].
Proof.
  intros Hg. unfold generate_response, bind, try_except, time_ms, lift,
    model_generate, modify, bind.
  cbn. rewrite Hg. cbn. eexists _, _. split; [reflexivity|]. split.
  - apply make_answer_fields.
  - reflexivity.
Qed.

(** C3, evaluated: on an empty index with sources required, the generation
    model is called once, with the decline text as its prompt, and the answer
    is whatever the model replied, not the decline text. *)
Theorem no_sources_answer_comes_from_the_model :
  match answer_question providers "What is the capital of France?" 5 None
          true empty_world with
  | Returns a w' =>
      a !! "response" = Some (FStr "Paris is the capital of France.")
      /\ a !! "response" <> Some (FStr NO_SOURCES_TEXT)
      /\ a !! "sources" = Some (FDicts [])
      /\ trace w' = [EvGenerate NO_SOURCES_TEXT]
  | _ => False
  end.
Proof.
  vm_compute. repeat split; try reflexivity. discriminate.
Qed.

End RagFacts.

(** ** The ingestion pipeline *)

Module PipelineFacts.
Import PyStr Py Store Qdrant Sys Processor Props Demo.

(** *** Frames: what the chunking loops leave untouched *)

Lemma chunk_loop_frame (P : Providers) (document_id : string) (page : Page)
  (page_chunks : list string) :
  forall (chunk_idx : Z) (acc : list string * list ChunkMeta) (w : world),
  exists acc' n,
    chunk_loop P document_id page page_chunks chunk_idx acc w
    = Returns acc' (set_uuids n w)
    /\ (length (fst acc) = length (snd acc) ->
        length (fst acc') = length (snd acc')).
Proof.
  induction page_chunks as [|chunk rest IH]; intros chunk_idx acc w.
  - exists acc, (uuids_drawn w). split; [destruct w; reflexivity | auto].
  - cbn [chunk_loop]. unfold bind, uuid4_str.
    match goal with
    | |- context [chunk_loop P document_id page rest ?i ?a ?w'] =>
        destruct (IH i a w') as (acc' & n & Hrun & Hlen)
    end.
    exists acc', n. split.
    + rewrite Hrun. reflexivity.
    + intros H. apply Hlen. cbn [fst snd]. rewrite !length_app. cbn. lia.
Qed.

Lemma page_loop_frame (P : Providers) (fuel : nat) (document_id : string)
  (pages : list Page) :
  forall (acc : list string * list ChunkMeta) (w : world),
  page_loop P fuel document_id pages acc w = Diverges
  \/ exists acc' n,
       page_loop P fuel document_id pages acc w = Returns acc' (set_uuids n w)
       /\ (length (fst acc) = length (snd acc) ->
           length (fst acc') = length (snd acc')).
Proof.
  induction pages as [|page rest IH]; intros acc w.
  - right. exists acc, (uuids_drawn w). split; [destruct w; reflexivity | auto].
  - cbn [page_loop]. destruct (chunk_page fuel (content page)) as [cs|];
      [|left; reflexivity].
    unfold bind.
    destruct (chunk_loop_frame P document_id page cs 0 acc w)
      as (acc1 & n1 & Hrun1 & Hlen1).
    rewrite Hrun1.
    destruct (IH acc1 (set_uuids n1 w)) as [Hdiv | (acc2 & n2 & Hrun2 & Hlen2)].
    + left. exact Hdiv.
    + right. exists acc2, n2. split; [rewrite Hrun2; reflexivity | auto].
Qed.

(** *** Row insertion *)

Lemma add_rows_returns (rows : list DocumentChunk) :
  forall w, add_rows rows w = Returns tt (rows_added rows w).
Proof.
  induction rows as [|row rest IH]; intros w.
  - unfold rows_added. cbn. rewrite !app_nil_r. destruct w as [[] ? ? ? ? ? ?].
    reflexivity.
  - cbn [add_rows]. unfold bind, db_add_chunk, modify. rewrite IH.
    unfold rows_added, log, with_db, add_chunk. cbn.
    rewrite <- !app_assoc. reflexivity.
Qed.

(** *** The index after an upsert *)


Lemma upsert_keeps (pts : list PointStruct) :
  forall (m : gmap string PointStruct) (k : string),
  is_Some (m !! k) -> is_Some (upsert m pts !! k).
Proof.
  unfold upsert. induction pts as [|p pts IH]; intros m k H; cbn; [exact H|].
  apply IH. destruct (decide (point_id p = k)) as [E|Hne].
  - subst k. rewrite lookup_insert_eq. eauto.
  - rewrite lookup_insert_ne by exact Hne. exact H.
Qed.

Lemma upsert_present (pts : list PointStruct) :
  forall (m : gmap string PointStruct) (pt : PointStruct),
  In pt pts -> is_Some (upsert m pts !! point_id pt).
Proof.
  induction pts as [|p pts IH]; intros m pt Hin; [inversion Hin|].
  destruct Hin as [->|Hin].
  - change (upsert m (pt :: pts)) with (upsert (<[point_id pt := pt]> m) pts).
    apply upsert_keeps. rewrite lookup_insert_eq. eauto.
  - change (upsert m (p :: pts)) with (upsert (<[point_id p := p]> m) pts).
    apply IH, Hin.
Qed.

(** *** Attribute assignments on the loaded row *)

Lemma find_update_row (f : Document -> Document) (i : string)
  (rows : list Document) :
  (forall d, id (f d) = id d) ->
  List.find (fun doc => String.eqb (id doc) i) (update_row f i rows)
  = option_map f (List.find (fun doc => String.eqb (id doc) i) rows).
Proof.
  intros Hid. induction rows as [|d rows IH]; [reflexivity|].
  cbn [update_row List.find]. destruct (String.eqb (id d) i) eqn:E.
  - cbn [List.find]. rewrite Hid, E. reflexivity.
  - cbn [List.find]. rewrite E. exact IH.
Qed.

(** *** The runs of [process_pdf] on a document that exists *)

Lemma handler_returns (document_id : string) (doc : Document) (e : exn)
  (w : world) :
  process_pdf_handler document_id (Some doc) e w
  = Returns false (failed document_id e w).
Proof. reflexivity. Qed.

Lemma body_starts (P : Providers) (fuel : nat) (file_path document_id : string)
  (doc : Document) (w : world) :
  process_pdf_body P fuel file_path document_id (Some doc) w
  = ingest P fuel file_path document_id doc (started document_id w).
Proof. reflexivity. Qed.

(** What [ingest] does to a world [w]: it diverges; or it raises from a
    world that differs from [w] only in the page count of the document and in
    the identifiers drawn; or it completes. *)
Lemma ingest_cases (P : Providers) (fuel : nat) (file_path document_id : string)
  (doc : Document) (w : world) :
  match ingest P fuel file_path document_id doc w with
  | Diverges => True
  | Raises e w' =>
      w' = w \/
      exists n k,
        w' = set_uuids k
               (with_db (update_document (set_page_count n) document_id) w)
  | Returns b w' =>
      b = true /\
      exists metas embeddings texts n k,
        encode P texts = Ok embeddings /\
        length texts = length metas /\
        w' = completed document_id (Z.of_nat (length texts))
               (rows_added (map (make_row document_id) metas)
                  (log (EvUpsert (map (make_point document_id doc)
                                    (zip metas embeddings)))
                     (with_index
                        (fun m => upsert m
                                    (map (make_point document_id doc)
                                       (zip metas embeddings)))
                        (set_uuids k
                           (with_db
                              (update_document (set_page_count n) document_id)
                              w)))))
  end.
Proof.
  unfold ingest. unfold bind at 1. unfold extract_text_from_pdf, bind, read_file.
  destruct (files w !! file_path) as [bytes|]; [|left; reflexivity].
  unfold lift. destruct (pdf_pages P bytes) as [raw|e]; [|left; reflexivity].
  cbn [ret]. unfold assign, modify.
  set (pages := collect_pages raw 0).
  set (w2 := with_db _ w).
  destruct (page_loop_frame P fuel document_id pages ([], []) w2)
    as [Hdiv | (acc & k & Hrun & Hlen)].
  - rewrite Hdiv. exact I.
  - rewrite Hrun. specialize (Hlen eq_refl).
    unfold create_embeddings, lift.
    destruct (encode P acc.1) as [embeddings|e] eqn:Eenc;
      [|right; eexists _, k; reflexivity].
    cbn [ret]. unfold qdrant_upsert.
    destruct (upsert_failure P _) as [e|];
      [right; eexists _, k; reflexivity|].
    unfold modify at 1. cbv beta iota. rewrite add_rows_returns.
    unfold db_commit, modify, ret. cbv beta iota.
    split; [reflexivity|].
    exists acc.2, embeddings, acc.1, (Z.of_nat (length pages)), k.
    split; [exact Eenc|]. split; [exact Hlen|]. reflexivity.
Qed.

(** *** Projections of the worlds a run goes through *)

Lemma started_view (i : string) (w : world) :
  trace (started i w) = trace w ++ [EvCommit (session_new_chunks (db w))] /\
  index (started i w) = index w /\
  session_new_chunks (db (started i w)) = [] /\
  stored_chunks (db (started i w))
  = stored_chunks (db w) ++ session_new_chunks (db w) /\
  session_documents (db (started i w))
  = update_row (set_status "processing") i (session_documents (db w)).
Proof. repeat split; reflexivity. Qed.

Lemma paged_view (i : string) (n : Z) (k : nat) (w : world) :
  let w' := set_uuids k (with_db (update_document (set_page_count n) i) w) in
  trace w' = trace w /\ index w' = index w /\
  session_new_chunks (db w') = session_new_chunks (db w) /\
  stored_chunks (db w') = stored_chunks (db w) /\
  session_documents (db w')
  = update_row (set_page_count n) i (session_documents (db w)).
Proof. repeat split; reflexivity. Qed.

Lemma failed_view (i : string) (e : exn) (w : world) :
  trace (failed i e w) = trace w ++ [EvCommit (session_new_chunks (db w))] /\
  index (failed i e w) = index w /\
  stored_chunks (db (failed i e w))
  = stored_chunks (db w) ++ session_new_chunks (db w) /\
  stored_documents (db (failed i e w)) = session_documents (db (failed i e w)) /\
  session_documents (db (failed i e w))
  = update_row (set_error_message (str_exn e)) i
      (update_row (set_status "failed") i (session_documents (db w))).
Proof. repeat split; reflexivity. Qed.

Lemma completed_view (i : string) (n : Z) (w : world) :
  trace (completed i n w) = trace w ++ [EvCommit (session_new_chunks (db w))] /\
  index (completed i n w) = index w /\
  stored_chunks (db (completed i n w))
  = stored_chunks (db w) ++ session_new_chunks (db w).
Proof. repeat split; reflexivity. Qed.

Lemma upserted_rows_view (points : list PointStruct)
  (rows : list DocumentChunk) (w : world) :
  let w' :=
    rows_added rows
      (log (EvUpsert points) (with_index (fun m => upsert m points) w)) in
  trace w' = (trace w ++ [EvUpsert points]) ++ map EvAdd rows /\
  index w' = upsert (index w) points /\
  session_new_chunks (db w') = session_new_chunks (db w) ++ rows /\
  stored_chunks (db w') = stored_chunks (db w).
Proof. repeat split; reflexivity. Qed.

(** The row of the document after a failed run. *)
Lemma failed_document (i : string) (e : exn) (w : world) (f : Document -> Document)
  (doc : Document) :
  (forall d, id (f d) = id d) ->
  List.find (fun d => String.eqb (id d) i) (session_documents (db w))
  = Some (f doc) ->
  exists d,
    first_by_id (db (failed i e w)) i = Some d /\
    processing_status d = "failed" /\ error_message d = Some (str_exn e).
Proof.
  intros Hid Hfind. destruct (failed_view i e w) as (_ & _ & _ & _ & Hdocs).
  unfold first_by_id. rewrite Hdocs.
  rewrite !find_update_row by reflexivity. rewrite Hfind.
  eexists. split; [reflexivity|]. split; reflexivity.
Qed.

Lemma process_pdf_cases (P : Providers) (fuel : nat)
  (file_path document_id : string) (w : world) (doc : Document) :
  first_by_id (db w) document_id = Some doc ->
  match process_pdf P fuel file_path document_id w with
  | Diverges => True
  | Raises _ _ => False
  | Returns true w' =>
      exists metas embeddings texts,
        encode P texts = Ok embeddings /\
        length texts = length metas /\
        trace w' = trace w ++
          success_trace (session_new_chunks (db w))
            (map (make_point document_id doc) (zip metas embeddings))
            (map (make_row document_id) metas) /\
        index w' = upsert (index w)
                     (map (make_point document_id doc) (zip metas embeddings)) /\
        stored_chunks (db w') =
          stored_chunks (db w) ++ session_new_chunks (db w)
          ++ map (make_row document_id) metas
  | Returns false w' =>
      trace w' = trace w ++ failure_trace (session_new_chunks (db w)) /\
      index w' = index w /\
      stored_chunks (db w') = stored_chunks (db w) ++ session_new_chunks (db w) /\
      stored_documents (db w') = session_documents (db w') /\
      exists e d,
        first_by_id (db w') document_id = Some d /\
        processing_status d = "failed" /\
        error_message d = Some (str_exn e)
  end.
Proof.
  intros Hdoc. unfold process_pdf, bind, get. rewrite Hdoc.
  unfold try_except. rewrite body_starts.
  pose proof (ingest_cases P fuel file_path document_id doc
                (started document_id w)) as H.
  destruct (started_view document_id w) as (Ht1 & Hi1 & Hp1 & Hs1 & Hd1).
  assert (Hfind1 : List.find (fun d => String.eqb (id d) document_id)
                     (session_documents (db (started document_id w)))
                   = Some (set_status "processing" doc)).
  { rewrite Hd1, find_update_row by reflexivity.
    unfold first_by_id in Hdoc. rewrite Hdoc. reflexivity. }
  destruct (ingest P fuel file_path document_id doc (started document_id w))
    as [b w'|e w'|]; [| |exact I].
  - destruct H as (-> & metas & embeddings & texts & n & k & Henc & Hlen & ->).
    exists metas, embeddings, texts.
    split; [exact Henc|]. split; [exact Hlen|].
    match goal with
    | |- context [completed ?i ?c (rows_added ?rows (log (EvUpsert ?pts) (with_index _ ?wx)))] =>
        destruct (completed_view i c
                    (rows_added rows
                       (log (EvUpsert pts)
                          (with_index (fun m => upsert m pts) wx))))
          as (Ht3 & Hi3 & Hs3);
        destruct (upserted_rows_view pts rows wx) as (Ht2 & Hi2 & Hp2 & Hs2)
    end.
    cbv zeta in Ht2, Hi2, Hp2, Hs2.
    destruct (paged_view document_id n k (started document_id w))
      as (Ht0 & Hi0 & Hp0 & Hs0 & _). cbv zeta in Ht0, Hi0, Hp0, Hs0.
    rewrite Ht3, Hi3, Hs3, Ht2, Hi2, Hp2, Hs2, Ht0, Hi0, Hp0, Hs0, Ht1, Hi1,
      Hp1, Hs1.
    unfold success_trace. cbn [app]. rewrite <- !app_assoc. cbn [app].
    repeat split; reflexivity.
  - rewrite handler_returns.
    destruct (failed_view document_id e w') as (Htf & Hif & Hsf & Hdf & _).
    rewrite Htf, Hif, Hsf. split; [|split; [|split; [|split; [exact Hdf|]]]].
    + destruct H as [->|(n & k & ->)].
      * rewrite Ht1, Hp1. unfold failure_trace. rewrite <- app_assoc.
        reflexivity.
      * destruct (paged_view document_id n k (started document_id w))
          as (Ht0 & _ & Hp0 & _). cbv zeta in Ht0, Hp0.
        rewrite Ht0, Hp0, Ht1, Hp1. unfold failure_trace.
        rewrite <- app_assoc. reflexivity.
    + destruct H as [->|(n & k & ->)]; [exact Hi1|].
      destruct (paged_view document_id n k (started document_id w))
        as (_ & Hi0 & _). cbv zeta in Hi0. rewrite Hi0. exact Hi1.
    + destruct H as [->|(n & k & ->)].
      * rewrite Hs1, Hp1, app_nil_r. reflexivity.
      * destruct (paged_view document_id n k (started document_id w))
          as (_ & _ & Hp0 & Hs0 & _). cbv zeta in Hp0, Hs0.
        rewrite Hs0, Hp0, Hs1, Hp1, app_nil_r. reflexivity.
    + exists e. destruct H as [->|(n & k & ->)].
      * apply (failed_document document_id e _ (set_status "processing") doc);
          [reflexivity | exact Hfind1].
      * apply (failed_document document_id e _
                 (fun d => set_page_count n (set_status "processing" d)) doc);
          [reflexivity|].
        destruct (paged_view document_id n k (started document_id w))
          as (_ & _ & _ & _ & Hd0). cbv zeta in Hd0.
        rewrite Hd0, find_update_row by reflexivity. rewrite Hfind1.
        reflexivity.
Qed.

Lemma process_pdf_unknown_document (P : Providers) (fuel : nat)
  (file_path document_id : string) (w : world) :
  first_by_id (db w) document_id = None ->
  process_pdf P fuel file_path document_id w
  = Raises (AttributeError
              "'NoneType' object has no attribute 'processing_status'") w.
Proof.
  intros Hdoc. unfold process_pdf, bind, get. rewrite Hdoc. reflexivity.
Qed.


(** C5, evaluated: for a document identifier that has no row, the lookup
    finds nothing, the [ValueError] raised for it is caught, and the handler
    itself fails on [document.processing_status], so an [AttributeError]
    leaves [process_pdf]; no status and no message are recorded. *)
Theorem process_pdf_missing_document_raises (P : Providers) (fuel : nat)
  (file_path document_id : string) :
  process_pdf P fuel file_path document_id empty_world
  = Raises (AttributeError
              "'NoneType' object has no attribute 'processing_status'")
      empty_world.
Proof. apply process_pdf_unknown_document. reflexivity. Qed.

(** *** The order of the upsert and of the chunk rows *)

Lemma map_fst_zip {A B : Type} (l : list A) :
  forall k : list B, (length l <= length k)%nat -> map fst (zip l k) = l.
Proof.
  induction l as [|a l IH]; intros k Hk; [reflexivity|].
  destruct k as [|b k]; cbn in Hk; [lia|].
  cbn. f_equal. apply IH. lia.
Qed.

Lemma upsert_covers_precedes (pending : list DocumentChunk) (tr : list event) :
  upsert_covers pending tr -> upsert_precedes pending tr.
Proof.
  intros H i ev row Hi Hw. destruct (H i ev row Hi Hw) as [Hp|(j & pts & Hj & Hev & _)];
    [left; exact Hp | right; eauto].
Qed.

Lemma failure_trace_covers (pending : list DocumentChunk) :
  upsert_covers pending (failure_trace pending).
Proof.
  intros i ev row Hi Hw. unfold failure_trace in Hi.
  destruct i as [|[|i]]; cbn in Hi; [| |discriminate].
  - injection Hi as <-. left. exact Hw.
  - injection Hi as <-. destruct Hw.
Qed.

Lemma success_trace_order (pending : list DocumentChunk)
  (points : list PointStruct) (rows : list DocumentChunk) :
  forall (i : nat) ev row,
    success_trace pending points rows !! i = Some ev -> writes_row ev row ->
    In row pending \/
    ((1 < i)%nat /\ In row rows /\
     success_trace pending points rows !! 1%nat = Some (EvUpsert points)).
Proof.
  intros i ev row Hi Hw. unfold success_trace in *.
  destruct i as [|[|i]]; cbn in Hi.
  - injection Hi as <-. left. exact Hw.
  - injection Hi as <-. destruct Hw.
  - right. split; [lia|]. split; [|reflexivity].
    apply list_elem_of_lookup_2, elem_of_app in Hi. destruct Hi as [Hi|Hi].
    + apply list_elem_of_In, in_map_iff in Hi. destruct Hi as (r & <- & Hr).
      cbn in Hw. subst r. exact Hr.
    + apply list_elem_of_singleton in Hi. subst ev. exact Hw.
Qed.

Lemma success_trace_precedes (pending : list DocumentChunk)
  (points : list PointStruct) (rows : list DocumentChunk) :
  upsert_precedes pending (success_trace pending points rows).
Proof.
  intros i ev row Hi Hw.
  destruct (success_trace_order pending points rows i ev row Hi Hw)
    as [Hp|(Hlt & _ & H1)]; [left; exact Hp|].
  right. exists 1%nat, points. split; [exact Hlt | exact H1].
Qed.

Lemma success_trace_covers (pending : list DocumentChunk)
  (points : list PointStruct) (rows : list DocumentChunk) :
  map vector_id rows = map point_id points ->
  upsert_covers pending (success_trace pending points rows).
Proof.
  intros Hids i ev row Hi Hw.
  destruct (success_trace_order pending points rows i ev row Hi Hw)
    as [Hp|(Hlt & Hrow & H1)]; [left; exact Hp|].
  right. exists 1%nat, points. split; [exact Hlt|]. split; [exact H1|].
  rewrite <- Hids. apply in_map, Hrow.
Qed.

Lemma no_upsert_among_adds (rows flushed : list DocumentChunk) :
  List.filter is_upsert (map EvAdd rows ++ [EvCommit flushed]) = [].
Proof. induction rows as [|r rows IH]; [reflexivity | exact IH]. Qed.

Lemma success_trace_one_upsert (pending : list DocumentChunk)
  (points : list PointStruct) (rows : list DocumentChunk) :
  List.filter is_upsert (success_trace pending points rows) = [EvUpsert points].
Proof.
  unfold success_trace. cbn [app List.filter is_upsert].
  rewrite no_upsert_among_adds. reflexivity.
Qed.

Lemma point_ids_of_rows (document_id : string) (doc : Document)
  (metas : list ChunkMeta) (embeddings : list vector) :
  (length metas <= length embeddings)%nat ->
  map vector_id (map (make_row document_id) metas)
  = map point_id (map (make_point document_id doc) (zip metas embeddings)).
Proof.
  intros Hlen. rewrite !map_map. cbn [vector_id make_row point_id make_point].
  rewrite <- (map_fst_zip metas embeddings Hlen) at 1.
  rewrite map_map. reflexivity.
Qed.

(** C8: in every run of [process_pdf] that does not diverge, the events
    appended to the trace contain at most one upsert, and every event that
    inserts or commits a chunk row (other than rows the session already held)
    comes after it; and if the embedding model returns one vector per text,
    that upsert carries the vector of each such row, and every chunk row
    committed by the run has its vector in the index. *)
Theorem upsert_before_chunk_rows (P : Providers) (fuel : nat)
  (file_path document_id : string) (w : world) :
  match process_pdf P fuel file_path document_id w with
  | Diverges => True
  | Returns _ w' | Raises _ w' =>
      exists tr,
        trace w' = trace w ++ tr /\
        upsert_precedes (session_new_chunks (db w)) tr /\
        (length (List.filter is_upsert tr) <= 1)%nat /\
        (one_vector_per_text P ->
         upsert_covers (session_new_chunks (db w)) tr /\
         forall row,
           In row (stored_chunks (db w')) ->
           In row (stored_chunks (db w)) \/
           In row (session_new_chunks (db w)) \/
           is_Some (index w' !! vector_id row))
  end.
Proof.
  destruct (first_by_id (db w) document_id) as [doc|] eqn:Hdoc.
  - pose proof (process_pdf_cases P fuel file_path document_id w doc Hdoc) as H.
    destruct (process_pdf P fuel file_path document_id w) as [[|] w'|e w'|];
      [| |destruct H|exact I].
    + destruct H as (metas & embeddings & texts & Henc & Hlen & Htr & Hidx & Hst).
      eexists. split; [exact Htr|]. split; [apply success_trace_precedes|].
      split; [rewrite success_trace_one_upsert; cbn; lia|].
      intros Hcontract. pose proof (Hcontract _ _ Henc) as Hvec.
      assert (Hids : map vector_id (map (make_row document_id) metas)
                     = map point_id (map (make_point document_id doc)
                                       (zip metas embeddings))).
      { apply point_ids_of_rows. lia. }
      split; [apply success_trace_covers, Hids|].
      intros row Hrow. rewrite Hst in Hrow.
      apply in_app_or in Hrow. destruct Hrow as [Hrow|Hrow]; [left; exact Hrow|].
      apply in_app_or in Hrow. destruct Hrow as [Hrow|Hrow];
        [right; left; exact Hrow|].
      right. right. rewrite Hidx.
      apply (in_map vector_id) in Hrow. rewrite Hids in Hrow.
      apply in_map_iff in Hrow. destruct Hrow as (pt & <- & Hpt).
      apply upsert_present, Hpt.
    + destruct H as (Htr & Hidx & Hst & _).
      eexists. split; [exact Htr|].
      split; [apply upsert_covers_precedes, failure_trace_covers|].
      split; [cbn; lia|]. intros _. split; [apply failure_trace_covers|].
      intros row Hrow. rewrite Hst in Hrow. apply in_app_or in Hrow.
      destruct Hrow as [Hrow|Hrow]; [left | right; left]; exact Hrow.
  - rewrite (process_pdf_unknown_document P fuel file_path document_id w Hdoc).
    exists []. split; [rewrite app_nil_r; reflexivity|].
    split; [intros i ev row Hi; destruct i; discriminate|].
    split; [cbn; lia|]. intros _.
    split; [intros i ev row Hi; destruct i; discriminate|].
    intros row Hrow. left. exact Hrow.
Qed.

Lemma upsert_before_chunk_rows_witness :
  exists tr,
    trace ingested_world = trace uploaded_world ++ tr /\
    upsert_precedes [] tr /\
    upsert_covers [] tr /\
    stored_chunks (db ingested_world) <> [] /\
    forall row,
      In row (stored_chunks (db ingested_world)) ->
      is_Some (index ingested_world !! vector_id row).
Proof.
  pose proof (upsert_before_chunk_rows providers 0 "uploads/id-0_report.pdf"
                "id-0" uploaded_world) as H.
  assert (E : process_pdf providers 0 "uploads/id-0_report.pdf" "id-0"
                uploaded_world = Returns true ingested_world)
    by (vm_compute; reflexivity).
  rewrite E in H. destruct H as (tr & Htr & Hprec & _ & Hcov).
  assert (Hcontract : one_vector_per_text providers).
  { intros texts vectors [= <-]. apply length_map. }
  destruct (Hcov Hcontract) as [Hc Hrows].
  exists tr. split; [exact Htr|]. split; [exact Hprec|]. split; [exact Hc|].
  split; [vm_compute; discriminate|].
  intros row Hrow. destruct (Hrows row Hrow) as [Hold|[Hpend|Hidx]];
    [destruct Hold | destruct Hpend | exact Hidx].
Defined.

End PipelineFacts.

(** ** Upload and deduplication *)

Module UploadFacts.
Import PyStr Py Store Qdrant Sys Processor Api Props Demo.

(** The read loop hands the whole file to the hash object. *)
Lemma feed_blocks_all (fuel : nat) :
  forall data fed : list Byte.byte,
  (length data < fuel)%nat -> feed_blocks fuel data fed = fed ++ data.
Proof.
  induction fuel as [|fuel IH]; intros data fed Hlen; [lia|].
  cbn [feed_blocks].
  assert (Hpos : (0 < Z.to_nat 4096)%nat) by lia.
  set (n := Z.to_nat 4096) in *. clearbody n.
  destruct (take n data) as [|b block] eqn:E.
  - destruct data as [|x data]; [rewrite app_nil_r; reflexivity|].
    destruct n; [lia | discriminate].
  - rewrite IH.
    + rewrite <- E, <- app_assoc, take_drop. reflexivity.
    + destruct data as [|x data]; [rewrite take_nil in E; discriminate|].
      rewrite length_drop. cbn [length] in *. lia.
Qed.

Lemma calculate_file_hash_of_file (P : Providers) (path : string)
  (content : list Byte.byte) (w : world) :
  files w !! path = Some content ->
  calculate_file_hash P path w = Returns (sha256_hexdigest P content) w.
Proof.
  intros Hf. unfold calculate_file_hash, bind, read_file, ret. rewrite Hf.
  rewrite feed_blocks_all by lia. reflexivity.
Qed.










End UploadFacts.

(** ** What the payload and the citation label carry *)

Module PayloadFacts.
Import PyStr Py Store Qdrant Sys Processor Api Rag Props Demo.
Import PipelineFacts UploadFacts.








End PayloadFacts.

(** ** More on the chunker *)

Module ChunkerMore.
Import PyStr Chunker Props MoreProps PyStrFacts RfindFacts ChunkerFacts Demo.

Lemma rfind_none (t p : text) (a b : Z) :
  (forall i, ~ occurs_at t p i) -> rfind t p a b = -1.
Proof.
  intros Hno. destruct (Z.eq_dec (rfind t p a b) (-1)) as [E|E]; [exact E|].
  destruct (rfind_found t p a b E) as (Hocc & _). destruct (Hno _ Hocc).
Qed.

Lemma break_at_raw (t : text) (a b : Z) :
  no_sentence_end t -> break_at t a b sentence_endings = b.
Proof.
  intros Hno. unfold sentence_endings. cbn [break_at].
  rewrite !rfind_none; [reflexivity | | |]; intros i; apply Hno;
    unfold sentence_endings; cbn; auto.
Qed.

Lemma window_end_raw (t : text) (cs s : Z) :
  no_sentence_end t -> window_end t cs s = s + cs.
Proof.
  intros Hno. unfold window_end.
  destruct (s + cs <? len t); [apply break_at_raw, Hno | reflexivity].
Qed.

Lemma run_reaches_end (t : text) (cs ov : Z) :
  no_sentence_end t -> ov < cs ->
  forall fuel s,
    0 <= start s -> len t - start s <= Z.of_nat fuel ->
    halted t (run fuel t cs ov s) = true.
Proof.
  intros Hno Hov fuel. induction fuel as [|fuel IH]; intros s Hs Hfuel.
  - cbn [run]. rewrite halted_unfold. apply Z.leb_le. lia.
  - cbn [run]. destruct (halted t s) eqn:Eh; [exact Eh|].
    rewrite halted_unfold in Eh. apply Z.leb_gt in Eh.
    apply IH.
    + rewrite step_start, window_end_raw by exact Hno.
      destruct (start s + cs <? len t); lia.
    + rewrite step_start, window_end_raw by exact Hno.
      destruct (Z.ltb_spec (start s + cs) (len t)); lia.
Qed.

(** X1: on a text without any sentence end, and with an overlap smaller than
    the chunk size (both after the defaults are applied), [chunk_text]
    returns after at most [len(text)] iterations. *)
Theorem chunk_text_returns_without_sentence_ends (t : text)
  (chunk_size overlap : option Z) (fuel : nat) :
  no_sentence_end t ->
  py_or overlap CHUNK_OVERLAP < py_or chunk_size CHUNK_SIZE ->
  (length t <= fuel)%nat ->
  exists out, chunk_text fuel t chunk_size overlap = Some out.
Proof.
  intros Hno Hov Hfuel. unfold chunk_text.
  destruct (len t <=? py_or chunk_size CHUNK_SIZE); [eauto|].
  rewrite (run_reaches_end t _ _ Hno Hov); [eauto | cbn; lia |].
  unfold len, init; cbn [start]. lia.
Qed.

(** A text without a space has no sentence end in the sense of the
    chunker, since each mark ends with a space. *)
Lemma no_space_no_sentence_end (t : text) :
  forallb (fun c => negb (Ascii.eqb c " ")) t = true -> no_sentence_end t.
Proof.
  intros Hall p i Hp [Hi Hocc].
  assert (Hsp : (take (length p) (drop (Z.to_nat i) t)) !! 1%nat
                = Some " "%char).
  { rewrite Hocc. unfold sentence_endings in Hp. cbn in Hp.
    destruct Hp as [<-|[<-|[<-|[]]]]; reflexivity. }
  apply lookup_take_Some in Hsp. destruct Hsp as [Hsp _].
  rewrite lookup_drop in Hsp. apply list_elem_of_lookup_2 in Hsp.
  apply list_elem_of_In in Hsp.
  rewrite forallb_forall in Hall. specialize (Hall _ Hsp). discriminate.
Qed.

Lemma chunk_text_returns_without_sentence_ends_witness :
  exists out, chunk_text 25 letters (Some 10) (Some 3) = Some out.
Proof.
  apply (chunk_text_returns_without_sentence_ends letters (Some 10) (Some 3) 25).
  - apply no_space_no_sentence_end. reflexivity.
  - reflexivity.
  - vm_compute. lia.
Defined.

Lemma run_never_leaves (t : text) (cs ov : Z) :
  no_sentence_end t -> cs <= ov -> 0 < cs < len t ->
  forall fuel s, start s <= 0 -> start (run fuel t cs ov s) <= 0.
Proof.
  intros Hno Hov Hcs fuel. induction fuel as [|fuel IH]; intros s Hs;
    [exact Hs|].
  cbn [run]. destruct (halted t s); [exact Hs|]. apply IH.
  rewrite step_start, window_end_raw by exact Hno.
  destruct (Z.ltb_spec (start s + cs) (len t)); lia.
Qed.

(** X3: on a text without any sentence end that is longer than the chunk
    size, an overlap that is not smaller than the (positive) chunk size makes
    the loop of [chunk_text] run forever: no number of iterations gives a
    result. *)
Theorem chunk_text_never_returns_with_large_overlap (t : text)
  (chunk_size overlap : option Z) (fuel : nat) :
  no_sentence_end t ->
  py_or chunk_size CHUNK_SIZE <= py_or overlap CHUNK_OVERLAP ->
  0 < py_or chunk_size CHUNK_SIZE < len t ->
  chunk_text fuel t chunk_size overlap = None.
Proof.
  intros Hno Hov Hcs. unfold chunk_text.
  destruct (Z.leb_spec (len t) (py_or chunk_size CHUNK_SIZE)); [lia|].
  rewrite halted_unfold.
  pose proof (run_never_leaves t _ _ Hno Hov Hcs fuel init (Z.le_refl 0)).
  destruct (Z.leb_spec (len t)
              (start (run fuel t (py_or chunk_size CHUNK_SIZE)
                        (py_or overlap CHUNK_OVERLAP) init))); [lia|].
  reflexivity.
Qed.

Lemma chunk_text_never_returns_with_large_overlap_witness :
  chunk_text 1000 letters (Some 10) (Some 12) = None.
Proof.
  apply (chunk_text_never_returns_with_large_overlap letters (Some 10)
           (Some 12) 1000).
  - apply no_space_no_sentence_end. reflexivity.
  - vm_compute. discriminate.
  - split; reflexivity.
Defined.

(** *** Chunks fit in the chunk size *)

Lemma length_lstrip (t : text) : (length (lstrip t) <= length t)%nat.
Proof.
  destruct (lstrip_split t) as (p & Hp & _).
  rewrite Hp at 2. rewrite length_app. lia.
Qed.

Lemma length_strip (t : text) : (length (strip t) <= length t)%nat.
Proof.
  unfold strip, rstrip. rewrite length_rev.
  pose proof (length_lstrip (rev (lstrip t))) as H1.
  rewrite length_rev in H1. pose proof (length_lstrip t). lia.
Qed.

Lemma len_slice (t : text) (a b : Z) :
  len (slice t a b)
  <= Z.max 0 (adjust_slice (len t) b - adjust_slice (len t) a).
Proof.
  unfold slice, len. rewrite length_take. lia.
Qed.

(** The end of a window is the raw cut or lies just after a mark found
    inside the searched range. *)
Lemma window_end_range (t : text) (cs s : Z) :
  window_end t cs s = s + cs \/
  (s + cs < len t /\
   exists i, window_end t cs s = i + 1 /\
             adjust_find_start (len t) s <= i /\
             i + 2 <= adjust_find_end (len t) (s + cs)).
Proof.
  unfold window_end. destruct (Z.ltb_spec (s + cs) (len t)) as [Hlt|Hge];
    [|left; reflexivity].
  destruct (break_at_snapped t s (s + cs)) as [i H|i _ H|i _ _ H|_ _ _];
    [| | |left; reflexivity];
    right; (split; [exact Hlt|]); exists i; (split; [reflexivity|]);
    destruct H as (_ & [Hlo Hhi] & _);
    match type of Hhi with
    | context [len ?p] => change (len p) with 2 in Hhi
    end; lia.
Qed.

Lemma step_chunk_fits (t : text) (cs s : Z) :
  0 <= cs -> len (strip (slice t s (window_end t cs s))) <= cs.
Proof.
  intros Hcs.
  pose proof (length_strip (slice t s (window_end t cs s))) as Hstrip.
  pose proof (len_slice t s (window_end t cs s)) as Hslice.
  assert (Hn : 0 <= len t) by (unfold len; lia).
  assert (Hb : adjust_slice (len t) (window_end t cs s)
               - adjust_slice (len t) s <= cs).
  { destruct (window_end_range t cs s) as [->|(Hlt & i & -> & Hlo & Hhi)];
      unfold adjust_slice, adjust_find_start, adjust_find_end in *;
      repeat match goal with
             | |- context [?a <? ?b] => destruct (Z.ltb_spec a b)
             | H : context [?a <? ?b] |- _ => destruct (Z.ltb_spec a b)
             end; lia. }
  unfold len in *. lia.
Qed.

Lemma run_chunks_fit (fuel : nat) (t : text) (cs ov : Z) :
  0 <= cs ->
  forall s,
    Forall (fun c => len c <= cs) (chunks s) ->
    Forall (fun c => len c <= cs) (chunks (run fuel t cs ov s)).
Proof.
  intros Hcs. induction fuel as [|fuel IH]; intros s Hs; [exact Hs|].
  cbn [run]. destruct (halted t s); [exact Hs|]. apply IH.
  unfold step. cbn [chunks].
  destruct (strip (slice t (start s) (window_end t cs (start s)))) eqn:E;
    [exact Hs|].
  apply Forall_app. split; [exact Hs|]. constructor; [|constructor].
  rewrite <- E. apply step_chunk_fits, Hcs.
Qed.

(** X2: with a positive chunk size (after the default is applied), no chunk
    returned by [chunk_text] is longer than the chunk size, whatever the
    overlap and wherever the sentence ends fall. *)
Theorem chunk_text_chunks_fit (fuel : nat) (t : text)
  (chunk_size overlap : option Z) (out : list text) :
  0 < py_or chunk_size CHUNK_SIZE ->
  chunk_text fuel t chunk_size overlap = Some out ->
  Forall (fun c => len c <= py_or chunk_size CHUNK_SIZE) out.
Proof.
  intros Hcs. unfold chunk_text.
  destruct (Z.leb_spec (len t) (py_or chunk_size CHUNK_SIZE)) as [Hle|Hgt].
  - intros [= <-]. constructor; [exact Hle | constructor].
  - destruct (halted t _); [|discriminate]. intros [= <-].
    apply run_chunks_fit; [lia | constructor].
Qed.

Lemma chunk_text_chunks_fit_witness :
  Forall (fun c => len c <= 15) [lit "Hello there."; lit "re. Bye now"].
Proof.
  apply (chunk_text_chunks_fit 5 (lit "Hello there. Bye now") (Some 15) (Some 3));
    [reflexivity | vm_compute; reflexivity].
Defined.

End ChunkerMore.

(** ** More on extraction and ingestion *)

Module PipelineMore.
Import PyStr Py Store Qdrant Sys Processor Api Props MoreProps Demo.
Import PipelineFacts UploadFacts PayloadFacts.

(** *** Pages *)

Lemma collect_pages_from (raw : list string) :
  forall (k : Z) (page : Page),
  In page (collect_pages raw k) <->
  exists (i : nat) text,
    raw !! i = Some text /\ str_strip text <> EmptyString /\
    page = {| page_no := k + Z.of_nat i + 1; content := str_strip text |}.
Proof.
  induction raw as [|text raw IH]; intros k page.
  - cbn. split; [tauto|]. intros (i & t & Hi & _). destruct i; discriminate.
  - cbn [collect_pages]. split.
    + intros Hin.
      assert (Hcase : (str_strip text <> EmptyString /\
                       page = {| page_no := k + 1; content := str_strip text |})
                      \/ In page (collect_pages raw (k + 1))).
      { destruct (str_strip text) eqn:E; [right; exact Hin|].
        destruct Hin as [<-|Hin]; [left | right; exact Hin].
        split; [discriminate | reflexivity]. }
      destruct Hcase as [[Hne ->]|Hrest].
      * exists 0%nat, text. split; [reflexivity|]. split; [exact Hne|].
        f_equal. lia.
      * apply IH in Hrest. destruct Hrest as (i & t & Hi & Hne & ->).
        exists (S i), t. split; [exact Hi|]. split; [exact Hne|].
        f_equal. lia.
    + intros (i & t & Hi & Hne & ->). destruct i as [|i].
      * cbn in Hi. injection Hi as ->.
        destruct (str_strip t) eqn:E; [congruence|].
        left. f_equal. lia.
      * cbn in Hi.
        assert (Hrest : In {| page_no := k + Z.of_nat (S i) + 1;
                              content := str_strip t |}
                          (collect_pages raw (k + 1))).
        { apply IH. exists i, t. split; [exact Hi|]. split; [exact Hne|].
          f_equal. lia. }
        destruct (str_strip text); [exact Hrest | right; exact Hrest].
Qed.

(** X4: the pages kept by [extract_text_from_pdf] are exactly the pages of
    the file whose text is not blank; each keeps its 1-based position in the
    file as its page number (blank pages are skipped, not renumbered) and
    carries the stripped text. *)
Theorem collect_pages_keeps_numbers (raw : list string) (page : Page) :
  In page (collect_pages raw 0) <->
  exists (i : nat) text,
    raw !! i = Some text /\ str_strip text <> EmptyString /\
    page = {| page_no := Z.of_nat i + 1; content := str_strip text |}.
Proof. apply (collect_pages_from raw 0 page). Qed.

(** *** Ordinals and identifiers of the chunks *)

Lemma chunk_loop_invariant (P : Providers) (document_id : string)
  (page : Page) (n0 : nat) (page_chunks : list string) :
  forall (chunk_idx : Z) (acc acc' : list string * list ChunkMeta)
         (w w' : world),
  chunk_metas_ok P document_id n0 acc w ->
  chunk_loop P document_id page page_chunks chunk_idx acc w = Returns acc' w' ->
  chunk_metas_ok P document_id n0 acc' w'.
Proof.
  induction page_chunks as [|chunk rest IH];
    intros chunk_idx acc acc' w w' Hinv Hrun.
  - cbn in Hrun. injection Hrun as <- <-. exact Hinv.
  - cbn [chunk_loop] in Hrun. unfold bind, uuid4_str in Hrun.
    eapply IH; [|exact Hrun]. clear Hrun IH.
    destruct Hinv as (Hlen & Hdrawn & Hall).
    split; [|split]; cbn [fst snd uuids_drawn].
    + rewrite !length_app. cbn. lia.
    + rewrite length_app. cbn. lia.
    + intros j m Hj. apply lookup_app_Some in Hj.
      destruct Hj as [Hj|[Hge Hj]].
      * destruct (Hall j m Hj) as (H1 & H2 & H3 & H4).
        split; [exact H1|]. split; [exact H2|]. split; [|exact H4].
        apply lookup_app_l_Some. exact H3.
      * destruct (j - length acc.2)%nat as [|x] eqn:Ej; [|destruct x; discriminate].
        cbn in Hj. injection Hj as <-.
        assert (j = length acc.2) by lia. subst j.
        cbn [meta_chunk_index chunk_uuid meta_content meta_document_id].
        split; [rewrite length_app; cbn; lia|].
        split; [rewrite Hdrawn; reflexivity|]. split; [|reflexivity].
        rewrite <- Hlen. rewrite lookup_app_r by lia.
        rewrite Nat.sub_diag. reflexivity.
Qed.

Lemma page_loop_invariant (P : Providers) (fuel : nat) (document_id : string)
  (n0 : nat) (pages : list Page) :
  forall (acc acc' : list string * list ChunkMeta) (w w' : world),
  chunk_metas_ok P document_id n0 acc w ->
  page_loop P fuel document_id pages acc w = Returns acc' w' ->
  chunk_metas_ok P document_id n0 acc' w'.
Proof.
  induction pages as [|page rest IH]; intros acc acc' w w' Hinv Hrun.
  - cbn in Hrun. injection Hrun as <- <-. exact Hinv.
  - cbn [page_loop] in Hrun.
    destruct (chunk_page fuel (content page)) as [cs|]; [|discriminate].
    unfold bind in Hrun.
    destruct (chunk_loop P document_id page cs 0 acc w) as [acc1 w1| |] eqn:E;
      [|discriminate|discriminate].
    eapply IH; [|exact Hrun].
    eapply chunk_loop_invariant; [exact Hinv | exact E].
Qed.

Lemma chunk_metas_ok_init (P : Providers) (document_id : string) (w : world) :
  chunk_metas_ok P document_id (uuids_drawn w) ([], []) w.
Proof.
  split; [reflexivity|]. split; [cbn; lia|]. intros j m Hj. discriminate.
Qed.

(** X5: the chunk ordinals written by [process_pdf] count the chunks of the
    whole document: the [j]-th entry of [chunk_metadata] has [chunk_index]
    [j] (the count is not reset at a page boundary), carries the [j]-th text
    of [all_chunks], and belongs to the document being processed. *)
Theorem page_loop_ordinals_are_global (P : Providers) (fuel : nat)
  (document_id : string) (pages : list Page) (w w' : world)
  (all_chunks : list string) (chunk_metadata : list ChunkMeta) :
  page_loop P fuel document_id pages ([], []) w
  = Returns (all_chunks, chunk_metadata) w' ->
  length all_chunks = length chunk_metadata /\
  forall (j : nat) m,
    chunk_metadata !! j = Some m ->
    meta_chunk_index m = Z.of_nat j /\
    all_chunks !! j = Some (meta_content m) /\
    meta_document_id m = document_id.
Proof.
  intros Hrun.
  destruct (page_loop_invariant P fuel document_id (uuids_drawn w) pages
              ([], []) _ w w' (chunk_metas_ok_init P document_id w) Hrun)
    as (Hlen & _ & Hall).
  split; [exact Hlen|]. intros j m Hj.
  destruct (Hall j m Hj) as (H1 & _ & H3 & H4). auto.
Qed.

(** X6: [process_pdf] draws exactly one identifier per chunk, in order; so
    when the identifier source never repeats itself, the point identifiers of
    one run are pairwise different. *)
Theorem page_loop_point_ids_distinct (P : Providers) (fuel : nat)
  (document_id : string) (pages : list Page) (w w' : world)
  (all_chunks : list string) (chunk_metadata : list ChunkMeta) :
  (forall a b, uuid4 P a = uuid4 P b -> a = b) ->
  page_loop P fuel document_id pages ([], []) w
  = Returns (all_chunks, chunk_metadata) w' ->
  uuids_drawn w' = (uuids_drawn w + length chunk_metadata)%nat /\
  NoDup (map chunk_uuid chunk_metadata).
Proof.
  intros Hinj Hrun.
  destruct (page_loop_invariant P fuel document_id (uuids_drawn w) pages
              ([], []) _ w w' (chunk_metas_ok_init P document_id w) Hrun)
    as (_ & Hdrawn & Hall).
  split; [exact Hdrawn|].
  apply NoDup_alt. intros i j u Hi Hj.
  change (map chunk_uuid chunk_metadata) with (chunk_uuid <$> chunk_metadata)
    in Hi, Hj.
  rewrite list_lookup_fmap in Hi, Hj.
  destruct (chunk_metadata !! i) as [mi|] eqn:Ei; [|discriminate].
  destruct (chunk_metadata !! j) as [mj|] eqn:Ej; [|discriminate].
  cbn in Hi, Hj.
  destruct (Hall i mi Ei) as (_ & Hui & _).
  destruct (Hall j mj Ej) as (_ & Huj & _).
  assert (Heq : uuid4 P (uuids_drawn w + i) = uuid4 P (uuids_drawn w + j))
    by congruence.
  apply Hinj in Heq. lia.
Qed.

Lemma page_loop_ordinals_are_global_witness :
  match page_loop providers 0 "doc" two_pages ([], []) empty_world with
  | Returns (all_chunks, chunk_metadata) _ =>
      map meta_chunk_index chunk_metadata = [0; 1] /\
      length all_chunks = length chunk_metadata /\
      forall (j : nat) m,
        chunk_metadata !! j = Some m ->
        meta_chunk_index m = Z.of_nat j /\
        all_chunks !! j = Some (meta_content m) /\
        meta_document_id m = "doc"
  | _ => False
  end.
Proof.
  destruct (page_loop providers 0 "doc" two_pages ([], []) empty_world)
    as [[all_chunks chunk_metadata] w'| |] eqn:E.
  - split.
    + vm_compute in E. injection E as _ <- _. reflexivity.
    + exact (page_loop_ordinals_are_global providers 0 "doc" two_pages
               empty_world w' all_chunks chunk_metadata E).
  - vm_compute in E. discriminate.
  - vm_compute in E. discriminate.
Defined.

Lemma unary_ids_injective : forall a b : nat,
  uuid4 unary_ids a = uuid4 unary_ids b -> a = b.
Proof.
  intros a b H. cbn [uuid4 unary_ids] in H.
  apply (f_equal list_ascii_of_string) in H.
  rewrite !list_ascii_of_string_of_list_ascii in H.
  apply (f_equal (@length ascii)) in H. rewrite !repeat_length in H. lia.
Qed.

Lemma page_loop_point_ids_distinct_witness :
  match page_loop unary_ids 0 "doc" two_pages ([], []) empty_world with
  | Returns (_, chunk_metadata) w' =>
      uuids_drawn w' = 2%nat /\ NoDup (map chunk_uuid chunk_metadata)
  | _ => False
  end.
Proof.
  destruct (page_loop unary_ids 0 "doc" two_pages ([], []) empty_world)
    as [[all_chunks chunk_metadata] w'| |] eqn:E.
  - destruct (page_loop_point_ids_distinct unary_ids 0 "doc" two_pages
                empty_world w' all_chunks chunk_metadata
                unary_ids_injective E) as [Hn Hnd].
    split; [|exact Hnd]. rewrite Hn.
    vm_compute in E. injection E as _ <- _. reflexivity.
  - vm_compute in E. discriminate.
  - vm_compute in E. discriminate.
Defined.

(** *** The preview stored with a chunk row *)

Lemma length_append (a b : string) :
  String.length (a +:+ b) = (String.length a + String.length b)%nat.
Proof.
  induction a as [|c a IH]; [reflexivity|].
  change (String c a +:+ b) with (String c (a +:+ b)).
  cbn [String.length]. rewrite IH. reflexivity.
Qed.

Lemma length_substring_prefix (n : nat) :
  forall s : string, (String.length (String.substring 0 n s) <= n)%nat.
Proof.
  induction n as [|n IH]; intros s; destruct s as [|c s]; cbn; try lia.
  specialize (IH s). lia.
Qed.

(** X7: the preview stored with a chunk row is the chunk text itself when
    that has at most 200 characters, and otherwise its first 200 characters
    followed by three dots; it never has more than 203 characters. *)
Theorem preview_is_bounded (content : string) :
  str_len (preview content) <= 203 /\
  (str_len content <= 200 -> preview content = content) /\
  (200 < str_len content ->
   preview content = String.substring 0 200 content +:+ "...").
Proof.
  unfold preview. destruct (Z.ltb_spec 200 (str_len content)) as [Hlt|Hge].
  - split; [|split; [lia | reflexivity]].
    unfold str_len. rewrite length_append.
    pose proof (length_substring_prefix 200 content). cbn [String.length]. lia.
  - split; [lia|]. split; [reflexivity | lia].
Qed.

(** *** The document row after a run *)

Lemma process_pdf_true_world (P : Providers) (fuel : nat)
  (file_path document_id : string) (w w' : world) (doc : Document) :
  first_by_id (db w) document_id = Some doc ->
  process_pdf P fuel file_path document_id w = Returns true w' ->
  exists (metas : list ChunkMeta) (embeddings : list vector)
         (texts : list string) (n : Z) (k : nat),
    length texts = length metas /\
    w' = completed document_id (Z.of_nat (length texts))
           (rows_added (map (make_row document_id) metas)
              (log (EvUpsert (map (make_point document_id doc)
                                (zip metas embeddings)))
                 (with_index
                    (fun m => upsert m
                                (map (make_point document_id doc)
                                   (zip metas embeddings)))
                    (set_uuids k
                       (with_db
                          (update_document (set_page_count n) document_id)
                          (started document_id w)))))).
Proof.
  intros Hdoc. unfold process_pdf, bind, get. rewrite Hdoc.
  unfold try_except. rewrite body_starts.
  pose proof (ingest_cases P fuel file_path document_id doc
                (started document_id w)) as H.
  destruct (ingest P fuel file_path document_id doc (started document_id w))
    as [b w''|e w''|]; [| |discriminate].
  - intros [= -> ->].
    destruct H as (_ & metas & embeddings & texts & n & k & _ & Hlen & ->).
    exists metas, embeddings, texts, n, k. split; [exact Hlen | reflexivity].
  - rewrite handler_returns. discriminate.
Qed.

Lemma completed_documents_view (i : string) (c n : Z) (k : nat)
  (rows : list DocumentChunk) (points : list PointStruct) (w : world) :
  let w' :=
    completed i c
      (rows_added rows
         (log (EvUpsert points)
            (with_index (fun m => upsert m points)
               (set_uuids k
                  (with_db (update_document (set_page_count n) i)
                     (started i w)))))) in
  session_documents (db w')
  = update_row (set_chunk_count c) i
      (update_row (set_status "completed") i
         (update_row (set_page_count n) i
            (update_row (set_status "processing") i
               (session_documents (db w))))) /\
  stored_documents (db w') = session_documents (db w') /\
  stored_chunks (db w')
  = (stored_chunks (db w) ++ session_new_chunks (db w)) ++ [] ++ rows.
Proof. repeat split; reflexivity. Qed.

(** X8: when the document row exists and [process_pdf] returns [True], the
    committed row of the document has status [completed], a page count, and a
    chunk count equal to the number of chunk rows the run committed; these
    rows all belong to the document; file name and fingerprint of the row are
    unchanged. *)
Theorem process_pdf_completes_document (P : Providers) (fuel : nat)
  (file_path document_id : string) (w w' : world) (doc : Document) :
  first_by_id (db w) document_id = Some doc ->
  process_pdf P fuel file_path document_id w = Returns true w' ->
  exists d rows n,
    first_by_id (db w') document_id = Some d /\
    stored_documents (db w') = session_documents (db w') /\
    processing_status d = "completed" /\
    page_count d = Some n /\
    chunk_count d = Z.of_nat (length rows) /\
    stored_chunks (db w')
    = stored_chunks (db w) ++ session_new_chunks (db w) ++ rows /\
    Forall (fun row => Store.document_id row = document_id) rows /\
    Store.filename d = Store.filename doc /\
    content_hash d = content_hash doc.
Proof.
  intros Hdoc Hrun.
  destruct (process_pdf_true_world P fuel file_path document_id w w' doc
              Hdoc Hrun)
    as (metas & embeddings & texts & n & k & Hlen & ->).
  match goal with
  | |- context [completed ?i ?c (rows_added ?rows (log (EvUpsert ?pts) _))] =>
      destruct (completed_documents_view i c n k rows pts w)
        as (Hdocs & Hstored & Hchunks)
  end.
  cbv zeta in Hdocs, Hstored, Hchunks.
  eexists _, (map (make_row document_id) metas), n.
  split.
  { unfold first_by_id. rewrite Hdocs.
    rewrite !find_update_row by reflexivity.
    unfold first_by_id in Hdoc. rewrite Hdoc. reflexivity. }
  split; [exact Hstored|]. split; [reflexivity|]. split; [reflexivity|].
  split; [cbn [chunk_count set_chunk_count]; rewrite length_map; congruence|].
  split; [rewrite Hchunks, <- app_assoc; reflexivity|].
  split; [|split; reflexivity].
  apply Forall_forall. intros row Hrow. apply list_elem_of_In in Hrow.
  apply in_map_iff in Hrow. destruct Hrow as (m & <- & _). reflexivity.
Qed.

Lemma process_pdf_completes_document_witness :
  exists d rows,
    first_by_id (db ingested_world) "id-0" = Some d /\
    processing_status d = "completed" /\
    chunk_count d = Z.of_nat (length rows) /\
    stored_chunks (db ingested_world) = rows.
Proof.
  destruct (first_by_id (db uploaded_world) "id-0") as [doc|] eqn:Hdoc;
    [|vm_compute in Hdoc; discriminate].
  destruct (process_pdf_completes_document providers 0
              "uploads/id-0_report.pdf" "id-0" uploaded_world ingested_world
              doc Hdoc)
    as (d & rows & n & Hd & _ & Hst & _ & Hc & Hrows & _).
  - vm_compute. reflexivity.
  - exists d, rows. split; [exact Hd|]. split; [exact Hst|].
    split; [exact Hc|]. rewrite Hrows.
    assert (H1 : stored_chunks (db uploaded_world) = [])
      by (vm_compute; reflexivity).
    assert (H2 : session_new_chunks (db uploaded_world) = [])
      by (vm_compute; reflexivity).
    rewrite H1, H2. reflexivity.
Defined.



End PipelineMore.

(** ** More on hashing and upload *)

Module UploadMore.
Import PyStr Py Store Qdrant Sys Processor Api Props MoreProps Demo.
Import PipelineFacts UploadFacts PayloadFacts.

(** X10: [calculate_file_hash] gives the digest of the whole content of the
    file, whatever its length is with respect to the 4096-byte blocks it is
    read in; it raises [FileNotFoundError] when there is no such file; it
    changes nothing. *)
Theorem calculate_file_hash_is_digest_of_content (P : Providers)
  (path : string) (w : world) :
  calculate_file_hash P path w
  = match files w !! path with
    | Some content => Returns (sha256_hexdigest P content) w
    | None => Raises (FileNotFoundError path) w
    end.
Proof.
  destruct (files w !! path) as [content|] eqn:E.
  - apply calculate_file_hash_of_file, E.
  - unfold calculate_file_hash, bind, read_file. rewrite E. reflexivity.
Qed.











End UploadMore.

(** ** More on search *)

Module SearchMore.
Import PyStr Py Store Qdrant Sys Processor Api Props MoreProps Demo.
Import SearchFacts RagFacts.

Lemma In_insert_by_score (h x : ScoredPoint) (l : list ScoredPoint) :
  In x (insert_by_score h l) -> x = h \/ In x l.
Proof.
  induction l as [|y l IH]; cbn.
  - intros [<-|[]]. left. reflexivity.
  - destruct (hit_score y <? hit_score h); cbn.
    + intros [<-|[<-|H]]; auto.
    + intros [<-|H]; [auto|]. destruct (IH H); auto.
Qed.

Lemma In_rank (x : ScoredPoint) (l : list ScoredPoint) :
  In x (rank l) -> In x l.
Proof.
  unfold rank. induction l as [|y l IH]; cbn; [tauto|].
  intros H. apply In_insert_by_score in H. destruct H as [->|H]; auto.
Qed.

Lemma length_insert_by_score (h : ScoredPoint) (l : list ScoredPoint) :
  length (insert_by_score h l) = S (length l).
Proof.
  induction l as [|y l IH]; cbn; [reflexivity|].
  destruct (hit_score y <? hit_score h); cbn; [reflexivity | rewrite IH; reflexivity].
Qed.

Lemma In_take {A : Type} (x : A) (n : nat) :
  forall l : list A, In x (take n l) -> In x l.
Proof.
  induction n as [|n IH]; intros [|y l]; cbn; try tauto.
  intros [->|H]; [left; reflexivity | right; apply IH, H].
Qed.

(** Every hit is a stored point that passes the filter. *)
Lemma search_hit_passes (sim : vector -> vector -> score)
  (points : gmap string PointStruct) (qv : vector) (f : option Filter)
  (limit : Z) (h : ScoredPoint) :
  In h (search sim points qv f limit) ->
  exists k pt,
    points !! k = Some pt /\ passes f pt = true /\
    hit_payload h = payload pt /\ hit_id h = point_id pt.
Proof.
  unfold search. intros H.
  apply In_take, In_rank, in_map_iff in H. destruct H as (pt & <- & Hpt).
  apply filter_In in Hpt. destruct Hpt as [Hin Hpass].
  apply in_map_iff in Hin. destruct Hin as ([k pt'] & <- & Hin).
  apply list_elem_of_In, elem_of_map_to_list in Hin.
  exists k, pt'. auto.
Qed.

Lemma hit_dicts_each (hits : list ScoredPoint) :
  forall ds, hit_dicts hits = Ok ds ->
             Forall2 (fun h d => hit_dict h = Ok d) hits ds.
Proof.
  induction hits as [|h hits IH]; intros ds; cbn.
  - intros [= <-]. constructor.
  - destruct (hit_dict h) as [d|] eqn:E; [|discriminate].
    destruct (hit_dicts hits) as [ds'|]; [|discriminate].
    intros [= <-]. constructor; [exact E | apply IH; reflexivity].
Qed.

Lemma hit_dict_fields (hit : ScoredPoint) :
  match hit_dict hit with
  | Ok d =>
      d !! "id" = Some (SStr (hit_id hit)) /\
      d !! "score" = Some (SFloat (hit_score hit)) /\
      forall k, In k payload_keys ->
                is_Some (d !! k) /\ d !! k = hit_payload hit !! k
  | Err e =>
      exists k, e = KeyError k /\ In k payload_keys /\
                hit_payload hit !! k = None
  end.
Proof.
  unfold hit_dict, getitem, payload_keys.
  destruct (hit_payload hit !! "document_id") as [v1|] eqn:E1;
    [|exists "document_id"; split; [reflexivity|]; split; [cbn; tauto | assumption]].
  destruct (hit_payload hit !! "page_number") as [v2|] eqn:E2;
    [|exists "page_number"; split; [reflexivity|]; split; [cbn; tauto | assumption]].
  destruct (hit_payload hit !! "chunk_index") as [v3|] eqn:E3;
    [|exists "chunk_index"; split; [reflexivity|]; split; [cbn; tauto | assumption]].
  destruct (hit_payload hit !! "content") as [v4|] eqn:E4;
    [|exists "content"; split; [reflexivity|]; split; [cbn; tauto | assumption]].
  destruct (hit_payload hit !! "filename") as [v5|] eqn:E5;
    [|exists "filename"; split; [reflexivity|]; split; [cbn; tauto | assumption]].
  split; [by simplify_map_eq|]. split; [by simplify_map_eq|].
  intros k Hk. cbn in Hk.
  destruct Hk as [<-|[<-|[<-|[<-|[<-|[]]]]]];
    (split; [eexists|]); by simplify_map_eq.
Qed.

(** X15: a search result is the hit's identifier and score together with the
    five payload fields [document_id], [page_number], [chunk_index],
    [content] and [filename], copied as they are; a hit whose payload lacks
    one of them makes the conversion raise [KeyError] for a missing key. *)
Theorem hit_dict_copies_payload (hit : ScoredPoint) :
  match hit_dict hit with
  | Ok d =>
      d !! "id" = Some (SStr (hit_id hit)) /\
      d !! "score" = Some (SFloat (hit_score hit)) /\
      forall k, In k payload_keys ->
                is_Some (d !! k) /\ d !! k = hit_payload hit !! k
  | Err e =>
      exists k, e = KeyError k /\ In k payload_keys /\
                hit_payload hit !! k = None
  end.
Proof. apply hit_dict_fields. Qed.

(** What [search_similar_chunks] returns comes from the hits of the index
    search. *)
Lemma search_similar_chunks_results (P : Providers) (q : string) (k : Z)
  (f : option (list string)) (w w' : world) (results : list dict) :
  search_similar_chunks P q k f w = Returns results w' ->
  w' = w /\
  exists v hits,
    hits = search (similarity P) (index w) v (make_filter f) k /\
    Forall2 (fun h d => hit_dict h = Ok d) hits results.
Proof.
  unfold search_similar_chunks, bind, lift.
  destruct (encode P [q]) as [[|v vs]|e]; cbn; [discriminate| |discriminate].
  unfold qdrant_search. destruct (search_failure P v); cbn; [discriminate|].
  destruct (hit_dicts (search (similarity P) (index w) v (make_filter f) k))
    as [ds|e] eqn:E; cbn; [|discriminate].
  intros [= <- <-]. split; [reflexivity|].
  eexists v, _. split; [reflexivity|]. apply hit_dicts_each, E.
Qed.

Lemma Forall2_transfer {A B : Type} (R : A -> B -> Prop) (PA : A -> Prop)
  (PB : B -> Prop) (la : list A) (lb : list B) :
  Forall2 R la lb -> Forall PA la ->
  (forall a b, R a b -> PA a -> PB b) -> Forall PB lb.
Proof.
  intros H2 Ha Himp. induction H2 as [|a b la lb Hab _ IH]; [constructor|].
  inversion Ha; subst. constructor; [eapply Himp; eassumption | apply IH; assumption].
Qed.

(** X16: with a filter naming one document, every result returned by
    [search_similar_chunks] belongs to that document, and comes from a point
    of the index. *)
Theorem search_single_document_filter (P : Providers) (q : string) (k : Z)
  (doc_id : string) (w w' : world) (results : list dict) :
  search_similar_chunks P q k (Some [doc_id]) w = Returns results w' ->
  Forall (fun d =>
            d !! "document_id" = Some (SStr doc_id) /\
            exists key pt,
              index w !! key = Some pt /\ d !! "id" = Some (SStr (point_id pt)) /\
              d !! "content" = payload pt !! "content")
    results.
Proof.
  intros Hrun.
  destruct (search_similar_chunks_results P q k _ w w' results Hrun)
    as (_ & v & hits & -> & Hall).
  assert (Hhits : Forall (fun h : ScoredPoint =>
                          exists key pt,
                            index w !! key = Some pt /\
                            passes (make_filter (Some [doc_id])) pt = true /\
                            hit_payload h = payload pt /\
                            hit_id h = point_id pt)
                    (search (similarity P) (index w) v
                       (make_filter (Some [doc_id])) k)).
  { apply Forall_forall. intros h Hh. apply list_elem_of_In in Hh.
    exact (search_hit_passes _ _ _ _ _ h Hh). }
  eapply Forall2_transfer; [exact Hall | exact Hhits |].
  intros h d Hhd (key & pt & Hpt & Hpass & Hpay & Hid).
  pose proof (hit_dict_fields h) as Hf. rewrite Hhd in Hf.
  destruct Hf as (Hdid & _ & Hkeys).
  assert (Hne : [doc_id] <> []) by discriminate.
  destruct (make_filter_is_conjunction [doc_id] pt Hne) as [Hconj _].
  specialize (Hconj Hpass doc_id (or_introl eq_refl)).
  split.
  - destruct (Hkeys "document_id") as [_ ->]; [cbn; tauto|].
    rewrite Hpay. exact Hconj.
  - exists key, pt. split; [exact Hpt|]. split; [rewrite Hdid, Hid; reflexivity|].
    destruct (Hkeys "content") as [_ ->]; [cbn; tauto|].
    rewrite Hpay. reflexivity.
Qed.

Lemma search_single_document_filter_witness :
  exists results w',
    search_similar_chunks providers "text" 5 (Some ["A"]) two_documents
    = Returns results w' /\
    Forall (fun d => d !! "document_id" = Some (SStr "A")) results.
Proof.
  assert (H : exists results,
             search_similar_chunks providers "text" 5 (Some ["A"])
               two_documents = Returns results two_documents).
  { eexists. vm_compute. reflexivity. }
  destruct H as [results E].
  exists results, two_documents. split; [exact E|].
  eapply Forall_impl;
    [exact (search_single_document_filter providers "text" 5 "A"
              two_documents two_documents results E)|].
  intros d [Hd _]. exact Hd.
Defined.

(** X17: [search_similar_chunks] only reads: whether it returns or raises,
    the world is as before; and when it returns, it returns at most [top_k]
    results. *)
Theorem search_similar_chunks_reads_only (P : Providers) (q : string) (k : Z)
  (f : option (list string)) (w : world) :
  match search_similar_chunks P q k f w with
  | Returns results w' => w' = w /\ (length results <= Z.to_nat k)%nat
  | Raises _ w' => w' = w
  | Diverges => False
  end.
Proof.
  destruct (search_similar_chunks_outcome P q k f w) as [[rs E]|[e E]];
    rewrite E; [|reflexivity].
  split; [reflexivity|].
  destruct (search_similar_chunks_results P q k f w w rs E)
    as (_ & v & hits & -> & Hall).
  rewrite <- (Forall2_length _ _ _ Hall). unfold search.
  rewrite length_take. lia.
Qed.

End SearchMore.

(** ** More on the answer composer *)

Module RagMore.
Import PyStr Py Store Qdrant Sys Processor Api Rag Props MoreProps Demo.
Import SearchFacts RagFacts.

(** *** Substrings of the prompt *)

Lemma append_assoc (a b c : string) : (a +:+ b) +:+ c = a +:+ (b +:+ c).
Proof.
  induction a as [|x a IH]; [reflexivity|].
  change (String x a +:+ b) with (String x (a +:+ b)).
  change (String x (a +:+ b) +:+ c) with (String x ((a +:+ b) +:+ c)).
  rewrite IH. reflexivity.
Qed.

Lemma append_empty_r (a : string) : a +:+ EmptyString = a.
Proof.
  induction a as [|x a IH]; [reflexivity|].
  change (String x a +:+ EmptyString) with (String x (a +:+ EmptyString)).
  rewrite IH. reflexivity.
Qed.

Lemma contains_head (x rest : string) : contains (x +:+ rest) x.
Proof. exists EmptyString, rest. reflexivity. Qed.

Lemma contains_self (x : string) : contains x x.
Proof. exists EmptyString, EmptyString. rewrite append_empty_r. reflexivity. Qed.

Lemma contains_tail (a b x : string) : contains b x -> contains (a +:+ b) x.
Proof.
  intros (pre & post & ->). exists (a +:+ pre), post.
  rewrite append_assoc. reflexivity.
Qed.

Lemma contains_trans (a b c : string) :
  contains a b -> contains b c -> contains a c.
Proof.
  intros (p1 & q1 & ->) (p2 & q2 & ->). exists (p1 +:+ p2), (q2 +:+ q1).
  rewrite !append_assoc. reflexivity.
Qed.

Lemma join_contains (sep : string) (parts : list string) (x : string) :
  In x parts -> contains (join sep parts) x.
Proof.
  induction parts as [|y parts IH]; [intros []|].
  intros Hin. cbn [join]. destruct parts as [|z parts].
  - destruct Hin as [->|[]]. apply contains_self.
  - destruct Hin as [->|Hin]; [apply contains_head|].
    apply contains_tail, contains_tail, IH, Hin.
Qed.

Ltac find_part :=
  repeat first [apply contains_head | apply contains_tail].

Lemma prompt_template_contains (context_text query : string) :
  contains (prompt_template context_text query) query /\
  contains (prompt_template context_text query) context_text /\
  contains (prompt_template context_text query) "Context from PDF documents:".
Proof. unfold prompt_template. repeat split; find_part. Qed.

Lemma context_blocks_each (chunks : list dict) :
  forall blocks, context_blocks chunks = Ok blocks ->
                 Forall2 (fun chunk b => context_block chunk = Ok b) chunks blocks.
Proof.
  induction chunks as [|chunk chunks IH]; intros blocks; cbn.
  - intros [= <-]. constructor.
  - destruct (context_block chunk) as [b|] eqn:E; [|discriminate].
    destruct (context_blocks chunks) as [bs|]; [|discriminate].
    intros [= <-]. constructor; [exact E | apply IH; reflexivity].
Qed.

Lemma context_block_label (chunk : dict) (block : string) :
  context_block chunk = Ok block ->
  exists f p c,
    chunk !! "filename" = Some f /\ chunk !! "page_number" = Some p /\
    chunk !! "content" = Some c /\
    block = "[Document: " +:+ format f +:+ ", Page: " +:+ format p +:+ "]"
            +:+ nl +:+ format c.
Proof.
  unfold context_block, getitem.
  destruct (chunk !! "filename") as [f|]; [|discriminate].
  destruct (chunk !! "page_number") as [p|]; [|discriminate].
  destruct (chunk !! "content") as [c|]; [|discriminate].
  intros [= <-]. exists f, p, c. auto.
Qed.

Lemma Forall2_each_left {A B : Type} (R : A -> B -> Prop) (la : list A)
  (lb : list B) :
  Forall2 R la lb -> Forall (fun a => exists b, In b lb /\ R a b) la.
Proof.
  intros H. induction H as [|a b la lb Hab _ IH]; [constructor|].
  constructor; [exists b; split; [left; reflexivity | exact Hab]|].
  eapply Forall_impl; [exact IH|].
  intros a' (b' & Hin & Hr). exists b'. split; [right; exact Hin | exact Hr].
Qed.

Lemma create_rag_prompt_ok (query : string) (chunks : list dict)
  (only : bool) (prompt : string) :
  create_rag_prompt query chunks only = Ok prompt ->
  (chunks = [] /\ only = true /\ prompt = NO_SOURCES_TEXT) \/
  exists blocks,
    Forall2 (fun chunk b => context_block chunk = Ok b) chunks blocks /\
    prompt = prompt_template (join (nl +:+ nl) blocks) query.
Proof.
  unfold create_rag_prompt. destruct chunks as [|chunk chunks].
  - destruct only; intros [= <-]; [left; auto|]. right.
    exists []. split; [constructor | reflexivity].
  - destruct (context_blocks (chunk :: chunks)) as [blocks|] eqn:E;
      [|discriminate].
    intros [= <-]. right. exists blocks.
    split; [apply context_blocks_each, E | reflexivity].
Qed.

(** X18: unless it returns the fixed text for the case of no context with
    sources required, the prompt built by [create_rag_prompt] contains the
    query as it was given, the heading of the context section, and for every
    context chunk its block, which is the label [Document: <filename>, Page:
    <page_number>] in square brackets, a line break and the chunk's
    content. *)
Theorem create_rag_prompt_contains (query : string) (chunks : list dict)
  (only : bool) (prompt : string) :
  create_rag_prompt query chunks only = Ok prompt ->
  (chunks = [] /\ only = true /\ prompt = NO_SOURCES_TEXT) \/
  (contains prompt query /\
   contains prompt "Context from PDF documents:" /\
   Forall (fun chunk =>
             exists f p c,
               chunk !! "filename" = Some f /\
               chunk !! "page_number" = Some p /\
               chunk !! "content" = Some c /\
               contains prompt
                 ("[Document: " +:+ format f +:+ ", Page: " +:+ format p
                  +:+ "]" +:+ nl +:+ format c))
     chunks).
Proof.
  intros Hp. destruct (create_rag_prompt_ok _ _ _ _ Hp)
    as [Hfixed|(blocks & E & ->)]; [left; exact Hfixed|].
  right.
  destruct (prompt_template_contains (join (nl +:+ nl) blocks) query)
    as (H1 & H2 & H3).
  split; [exact H1|]. split; [exact H3|].
  eapply Forall_impl; [exact (Forall2_each_left _ _ _ E)|].
  intros c (b & Hb & Hcb). cbv beta in Hcb.
  destruct (context_block_label c b Hcb) as (f & p & t & Hf & Hp' & Ht & ->).
  exists f, p, t. split; [exact Hf|]. split; [exact Hp'|]. split; [exact Ht|].
  eapply contains_trans; [exact H2|]. apply join_contains, Hb.
Qed.

Lemma create_rag_prompt_contains_witness :
  exists prompt,
    create_rag_prompt "How did revenue change?" [revenue_chunk] false
    = Ok prompt /\
    contains prompt "How did revenue change?" /\
    contains prompt
      ("[Document: a.pdf, Page: 3]" +:+ nl +:+ "Revenue grew 10%.").
Proof.
  destruct (create_rag_prompt "How did revenue change?" [revenue_chunk] false)
    as [prompt|e] eqn:E; [|vm_compute in E; discriminate].
  exists prompt. split; [reflexivity|].
  destruct (create_rag_prompt_contains _ _ _ _ E)
    as [(Hnil & _)|(Hq & _ & Hall)]; [discriminate|].
  split; [exact Hq|].
  apply Forall_inv in Hall. destruct Hall as (f & p & c & Hf & Hp & Hc & Hb).
  vm_compute in Hf. vm_compute in Hp. vm_compute in Hc.
  injection Hf as <-. injection Hp as <-. injection Hc as <-.
  exact Hb.
Defined.

(** *** Sources *)

Lemma source_dict_fields (chunk : dict) :
  match source_dict chunk with
  | Ok src =>
      src !! "document_id" = chunk !! "document_id" /\
      src !! "document_name" = chunk !! "filename" /\
      src !! "page_number" = chunk !! "page_number" /\
      src !! "chunk_index" = chunk !! "chunk_index" /\
      src !! "content" = chunk !! "content" /\
      src !! "relevance_score" = chunk !! "score" /\
      forall k, In k source_keys -> is_Some (chunk !! k)
  | Err e =>
      exists k, e = KeyError k /\ In k source_keys /\ chunk !! k = None
  end.
Proof.
  unfold source_dict, getitem, source_keys.
  destruct (chunk !! "document_id") as [v1|] eqn:E1;
    [|exists "document_id"; split; [reflexivity|]; split; [cbn; tauto | assumption]].
  destruct (chunk !! "filename") as [v2|] eqn:E2;
    [|exists "filename"; split; [reflexivity|]; split; [cbn; tauto | assumption]].
  destruct (chunk !! "page_number") as [v3|] eqn:E3;
    [|exists "page_number"; split; [reflexivity|]; split; [cbn; tauto | assumption]].
  destruct (chunk !! "chunk_index") as [v4|] eqn:E4;
    [|exists "chunk_index"; split; [reflexivity|]; split; [cbn; tauto | assumption]].
  destruct (chunk !! "content") as [v5|] eqn:E5;
    [|exists "content"; split; [reflexivity|]; split; [cbn; tauto | assumption]].
  destruct (chunk !! "score") as [v6|] eqn:E6;
    [|exists "score"; split; [reflexivity|]; split; [cbn; tauto | assumption]].
  repeat (split; [by simplify_map_eq|]).
  intros k Hk. cbn in Hk.
  destruct Hk as [<-|[<-|[<-|[<-|[<-|[<-|[]]]]]]]; eauto.
Qed.

Lemma source_dicts_each (chunks : list dict) :
  match source_dicts chunks with
  | Ok sources =>
      Forall2 (fun chunk src => source_dict chunk = Ok src) chunks sources
  | Err e =>
      exists chunk, In chunk chunks /\ source_dict chunk = Err e
  end.
Proof.
  induction chunks as [|chunk chunks IH]; cbn; [constructor|].
  destruct (source_dict chunk) as [d|e] eqn:E;
    [|exists chunk; split; [left; reflexivity | exact E]].
  destruct (source_dicts chunks) as [ds|e].
  - constructor; [exact E | exact IH].
  - destruct IH as (c & Hin & Hc). exists c. split; [right; exact Hin | exact Hc].
Qed.


(** *** What a call of the composer does to the world *)

Lemma create_rag_prompt_error (query : string) (chunks : list dict)
  (only : bool) (e : exn) :
  create_rag_prompt query chunks only = Err e ->
  exists chunk k,
    In chunk chunks /\ e = KeyError k /\ In k prompt_keys /\
    chunk !! k = None.
Proof.
  unfold create_rag_prompt. destruct chunks as [|c0 cs]; [destruct only; discriminate|].
  generalize (c0 :: cs) as chunks. clear c0 cs. intros chunks.
  destruct (context_blocks chunks) as [bs|e'] eqn:E; [discriminate|].
  intros [= ->]. revert E. induction chunks as [|chunk chunks IH]; cbn;
    [discriminate|].
  destruct (context_block chunk) as [b|e1] eqn:Eb.
  - destruct (context_blocks chunks) as [bs|e2]; [discriminate|].
    intros [= ->]. destruct (IH eq_refl) as (c & k & Hin & Hk).
    exists c, k. split; [right; exact Hin | exact Hk].
  - intros [= ->]. exists chunk. revert Eb.
    unfold context_block, getitem, prompt_keys.
    destruct (chunk !! "filename") eqn:E1;
      [|intros [= <-]; exists "filename"; cbn; tauto].
    destruct (chunk !! "page_number") eqn:E2;
      [|intros [= <-]; exists "page_number"; cbn; tauto].
    destruct (chunk !! "content") eqn:E3;
      [discriminate|intros [= <-]; exists "content"; cbn; tauto].
Qed.

(** X20: when a context chunk lacks [filename], [page_number] or [content],
    [generate_response] does not call the generation model at all: it
    returns the answer that describes the [KeyError], with no sources, and
    the trace is as before. *)
Theorem generate_response_bad_chunk_skips_model (P : Providers)
  (query : string) (chunks : list dict) (only : bool) (w : world)
  (chunk : dict) (k : string) :
  In chunk chunks -> In k prompt_keys -> chunk !! k = None ->
  exists a w' k',
    generate_response P query chunks only w = Returns a w' /\
    trace w' = trace w /\ same_stores w w' /\
    degraded a (KeyError k') /\
    In k' prompt_keys /\
    a !! "tokens_used" = Some (FInt 0).
Proof.
  intros Hin Hk Hnone.
  destruct (create_rag_prompt query chunks only) as [prompt|e] eqn:E.
  - exfalso.
    destruct (create_rag_prompt_ok _ _ _ _ E)
      as [(-> & _)|(blocks & Hall & _)]; [destruct Hin|].
    apply Forall2_each_left in Hall. rewrite Forall_forall in Hall.
    destruct (Hall chunk (proj2 (list_elem_of_In _ _) Hin))
      as (b & _ & Hb).
    destruct (context_block_label chunk b Hb) as (f & p & c & Hf & Hp & Hc & _).
    unfold prompt_keys in Hk. cbn in Hk.
    destruct Hk as [<-|[<-|[<-|[]]]]; congruence.
  - destruct (create_rag_prompt_error _ _ _ _ E) as (c & k' & _ & -> & Hk' & _).
    unfold generate_response, bind, try_except, time_ms, lift. rewrite E.
    cbn [raise ret].
    eexists _, _, k'. split; [reflexivity|]. split; [reflexivity|].
    split; [repeat split|]. split; [apply make_answer_degraded|].
    split; [exact Hk'|]. apply make_answer_fields.
Qed.

Lemma generate_response_bad_chunk_skips_model_witness :
  exists a w' k',
    generate_response providers "How did revenue change?"
      [delete "filename" revenue_chunk] false empty_world = Returns a w' /\
    trace w' = [] /\
    degraded a (KeyError k').
Proof.
  destruct (generate_response_bad_chunk_skips_model providers
              "How did revenue change?" [delete "filename" revenue_chunk]
              false empty_world (delete "filename" revenue_chunk) "filename")
    as (a & w' & k' & Hrun & Htr & _ & Hdeg & _).
  - left. reflexivity.
  - left. reflexivity.
  - apply lookup_delete_eq.
  - exists a, w', k'. split; [exact Hrun|]. split; [exact Htr | exact Hdeg].
Defined.

(** X21: when the prompt can be built and the model replies, but a context
    chunk lacks one of the keys read for the sources (such as [score]), the
    model has been called and its reply is thrown away: the answer describes
    the [KeyError] and has no sources and no context chunks. *)
Theorem generate_response_discards_reply (P : Providers) (query : string)
  (chunks : list dict) (only : bool) (w : world) (prompt text : string)
  (e : exn) :
  create_rag_prompt query chunks only = Ok prompt ->
  generate_content P prompt = Ok text ->
  source_dicts chunks = Err e ->
  exists a w',
    generate_response P query chunks only w = Returns a w' /\
    trace w' = trace w ++ [EvGenerate prompt] /\
    degraded a e /\
    a !! "context_chunks" = Some (FDicts []) /\
    exists chunk k,
      In chunk chunks /\ e = KeyError k /\ In k source_keys /\
      chunk !! k = None.
Proof.
  intros Hp Hg Hs.
  unfold generate_response, bind, try_except, time_ms, lift, model_generate,
    modify, bind.
  rewrite Hp. cbn [ret]. rewrite Hg. cbn [ret]. rewrite Hs. cbn [raise ret].
  eexists _, _. split; [reflexivity|]. split; [reflexivity|].
  split; [apply make_answer_degraded|]. split; [apply make_answer_fields|].
  pose proof (source_dicts_each chunks) as H. rewrite Hs in H.
  destruct H as (chunk & Hin & Hc).
  pose proof (source_dict_fields chunk) as Hf. rewrite Hc in Hf.
  destruct Hf as (k & -> & Hk & Hnone). exists chunk, k. auto.
Qed.

Lemma generate_response_discards_reply_witness :
  exists a w',
    generate_response providers "How did revenue change?" [unscored_chunk]
      false empty_world = Returns a w' /\
    (exists prompt, trace w' = [EvGenerate prompt]) /\
    degraded a (KeyError "score").
Proof.
  destruct (create_rag_prompt "How did revenue change?" [unscored_chunk] false)
    as [prompt|e0] eqn:Ep; [|vm_compute in Ep; discriminate].
  destruct (generate_response_discards_reply providers
              "How did revenue change?" [unscored_chunk] false empty_world
              prompt "Paris is the capital of France." (KeyError "score"))
    as (a & w' & Hrun & Htr & Hdeg & _).
  - exact Ep.
  - reflexivity.
  - vm_compute. reflexivity.
  - exists a, w'. split; [exact Hrun|]. split; [exists prompt; exact Htr|].
    exact Hdeg.
Defined.

(** X22: when the prompt can be built, the model replies and every context
    chunk has the keys read for the sources, [generate_response] calls the
    model exactly once, with that prompt, and returns the model's text as the
    answer, the sources, the context chunks as they were passed, the
    difference of its two clock readings as elapsed time, and the number of
    whitespace-separated words of the text (0 for an empty text) as token
    estimate; nothing but the clock and the trace changes. *)
Theorem generate_response_success (P : Providers) (query : string)
  (chunks : list dict) (only : bool) (w : world) (prompt text : string)
  (sources : list dict) :
  create_rag_prompt query chunks only = Ok prompt ->
  generate_content P prompt = Ok text ->
  source_dicts chunks = Ok sources ->
  exists a w',
    generate_response P query chunks only w = Returns a w' /\
    a !! "response" = Some (FStr text) /\
    a !! "sources" = Some (FDicts sources) /\
    a !! "context_chunks" = Some (FDicts chunks) /\
    a !! "response_time_ms"
    = Some (FInt (now_ms P (S (clock_reads w)) - now_ms P (clock_reads w))) /\
    a !! "tokens_used"
    = Some (FInt (if String.eqb text EmptyString then 0 else word_count text)) /\
    trace w' = trace w ++ [EvGenerate prompt] /\
    clock_reads w' = S (S (clock_reads w)) /\
    same_stores w w'.
Proof.
  intros Hp Hg Hs.
  unfold generate_response, bind, try_except, time_ms, lift, model_generate,
    modify, bind.
  rewrite Hp. cbn [ret]. rewrite Hg. cbn [ret]. rewrite Hs. cbn [raise ret].
  eexists _, _. split; [reflexivity|].
  match goal with
  | |- context [make_answer ?r ?s ?c ?t ?n] =>
      destruct (make_answer_fields r s c t n) as (H1 & H2 & H3 & H4 & H5)
  end.
  split; [exact H1|]. split; [exact H2|]. split; [exact H3|].
  split; [exact H4|]. split; [rewrite H5; destruct text; reflexivity|].
  split; [reflexivity|]. split; [reflexivity|]. repeat split.
Qed.

Lemma generate_response_success_witness :
  exists a w',
    generate_response providers "How did revenue change?" [revenue_chunk]
      false empty_world = Returns a w' /\
    a !! "response" = Some (FStr "Paris is the capital of France.") /\
    a !! "response_time_ms" = Some (FInt 1000) /\
    a !! "tokens_used" = Some (FInt 6).
Proof.
  destruct (create_rag_prompt "How did revenue change?" [revenue_chunk] false)
    as [prompt|e0] eqn:Ep; [|vm_compute in Ep; discriminate].
  assert (Hs : exists sources, source_dicts [revenue_chunk] = Ok sources)
    by (eexists; vm_compute; reflexivity).
  destruct Hs as [sources Es].
  destruct (generate_response_success providers "How did revenue change?"
              [revenue_chunk] false empty_world prompt
              "Paris is the capital of France." sources Ep eq_refl Es)
    as (a & w' & Hrun & Hr & _ & _ & Ht & Hn & _).
  exists a, w'. split; [exact Hrun|]. split; [exact Hr|].
  split; [exact Ht | exact Hn].
Defined.

(** Whatever happens, [generate_response] returns, touches nothing but the
    clock and the trace, and calls the model at most once. *)
Lemma generate_response_effects (P : Providers) (query : string)
  (chunks : list dict) (only : bool) (w : world) :
  exists a w',
    generate_response P query chunks only w = Returns a w' /\
    same_stores w w' /\
    (trace w' = trace w \/ exists prompt, trace w' = trace w ++ [EvGenerate prompt]).
Proof.
  unfold generate_response, bind, try_except, time_ms, lift, model_generate,
    modify, bind.
  destruct (create_rag_prompt query chunks only) as [prompt|e0]; cbn.
  - destruct (generate_content P prompt) as [text|e1]; cbn.
    + destruct (source_dicts chunks) as [srcs|e2]; cbn;
        eexists _, _; (split; [reflexivity|]); (split; [repeat split|]);
        right; exists prompt; reflexivity.
    + eexists _, _. split; [reflexivity|]. split; [repeat split|].
      right. exists prompt. reflexivity.
  - eexists _, _. split; [reflexivity|]. split; [repeat split|].
    left. reflexivity.
Qed.

(** X23: answering a question only reads: [answer_question] leaves the
    relational store, the index, the files, the scheduled tasks and the
    identifier source as they were, and it calls the generation model at most
    once. *)
Theorem answer_question_reads_only (P : Providers) (query : string)
  (top_k : Z) (document_filter : option (list string)) (only : bool)
  (w : world) :
  exists a w',
    answer_question P query top_k document_filter only w = Returns a w' /\
    same_stores w w' /\
    (trace w' = trace w \/
     exists prompt, trace w' = trace w ++ [EvGenerate prompt]).
Proof.
  unfold answer_question, try_except, bind.
  destruct (search_similar_chunks_outcome P query top_k document_filter w)
    as [[chunks E]|[e E]]; rewrite E.
  - destruct (generate_response_effects P query chunks only w)
      as (a & w' & Hrun & Hsame & Htr).
    rewrite Hrun. exists a, w'. auto.
  - cbn. eexists _, _. split; [reflexivity|]. split; [repeat split|].
    left. reflexivity.
Qed.

(** X24: when the retrieval step raises (the embedding of the query, the
    index search, or the conversion of a hit), [answer_question] does not
    call the generation model and does not read the clock: it returns the
    answer describing the failure with elapsed time 0, token estimate 0 and
    no sources, and the world is as before. *)
Theorem answer_question_retrieval_failure (P : Providers) (query : string)
  (top_k : Z) (document_filter : option (list string)) (only : bool)
  (w : world) (e : exn) :
  search_similar_chunks P query top_k document_filter w = Raises e w ->
  exists a,
    answer_question P query top_k document_filter only w = Returns a w /\
    a !! "response"
    = Some (FStr ("I encountered an error while processing your question: "
                  +:+ str_exn e)) /\
    a !! "sources" = Some (FDicts []) /\
    a !! "context_chunks" = Some (FDicts []) /\
    a !! "response_time_ms" = Some (FInt 0) /\
    a !! "tokens_used" = Some (FInt 0).
Proof.
  intros E. unfold answer_question, try_except, bind. rewrite E.
  eexists. split; [reflexivity|]. apply make_answer_fields.
Qed.

Lemma answer_question_retrieval_failure_witness :
  exists a,
    answer_question no_embeddings "How did revenue change?" 5 None false
      two_documents = Returns a two_documents /\
    a !! "response"
    = Some (FStr ("I encountered an error while processing your question: "
                  +:+ "model not loaded")) /\
    a !! "response_time_ms" = Some (FInt 0).
Proof.
  destruct (answer_question_retrieval_failure no_embeddings
              "How did revenue change?" 5 None false two_documents
              (ExternalError "model not loaded"))
    as (a & Hrun & Hr & _ & _ & Ht & _).
  - reflexivity.
  - exists a. split; [exact Hrun|]. split; [exact Hr | exact Ht].
Defined.

End RagMore.

(** ** Deletion, statistics and health *)

Module AdminFacts.
Import PyStr Py Store Qdrant Sys Processor Api Admin Props MoreProps Demo.

Section Deletion.
Context (delete_failure : string -> option exn).

Lemma delete_vectors_returns (rows : list DocumentChunk) :
  forall w,
    delete_vectors delete_failure rows w
    = Returns tt (with_index (vectors_deleted delete_failure rows) w).
Proof.
  induction rows as [|row rows IH]; intros w.
  - destruct w. reflexivity.
  - cbn [delete_vectors]. unfold bind, try_except, qdrant_delete.
    destruct (delete_failure (vector_id row)) as [e|] eqn:E.
    + cbn [raise ret]. rewrite IH. unfold vectors_deleted. cbn [foldl].
      rewrite E. destruct w. reflexivity.
    + unfold modify. rewrite IH. unfold vectors_deleted. cbn [foldl].
      rewrite E. reflexivity.
Qed.

Lemma delete_document_known (document_id : string) (document : Document)
  (w : world) :
  first_by_id (db w) document_id = Some document ->
  delete_document delete_failure document_id w
  = Returns "Document deleted successfully"
      (document_deleted delete_failure document w).
Proof.
  intros Hdoc.
  assert (Hid : id document = document_id).
  { unfold first_by_id in Hdoc. apply find_some in Hdoc.
    apply String.eqb_eq, Hdoc. }
  subst document_id.
  unfold delete_document, bind, get. rewrite Hdoc.
  unfold try_except, bind. rewrite delete_vectors_returns. reflexivity.
Qed.

Lemma vectors_deleted_lookup (rows : list DocumentChunk) :
  forall (m : gmap string PointStruct) (k : string),
  (vectors_deleted delete_failure rows m !! k = None \/
   vectors_deleted delete_failure rows m !! k = m !! k) /\
  ((forall row, In row rows -> vector_id row = k ->
                delete_failure k <> None) ->
   vectors_deleted delete_failure rows m !! k = m !! k) /\
  (forall row, In row rows -> vector_id row = k -> delete_failure k = None ->
               vectors_deleted delete_failure rows m !! k = None).
Proof.
  unfold vectors_deleted.
  induction rows as [|row rows IH]; intros m k; cbn [foldl].
  - split; [right; reflexivity|]. split; [reflexivity|]. intros row [].
  - destruct (delete_failure (vector_id row)) as [e|] eqn:E.
    + destruct (IH m k) as (H1 & H2 & H3). split; [exact H1|]. split.
      * intros Hno. apply H2. intros r Hr. apply Hno. right. exact Hr.
      * intros r [<-|Hr] Hk Hf; [congruence|]. exact (H3 r Hr Hk Hf).
    + destruct (IH (delete (vector_id row) m) k) as (H1 & H2 & H3).
      destruct (decide (vector_id row = k)) as [Heq|Hne].
      * assert (Hgone : foldl
                          (fun m0 row0 =>
                             match delete_failure (vector_id row0) with
                             | Some _ => m0
                             | None => delete (vector_id row0) m0
                             end) (delete (vector_id row) m) rows !! k = None).
        { destruct H1 as [H1|H1]; [exact H1|]. rewrite H1, Heq.
          apply lookup_delete_eq. }
        split; [left; exact Hgone|]. split.
        -- intros Hno. exfalso. apply (Hno row (or_introl eq_refl) Heq).
           rewrite <- Heq. exact E.
        -- intros r _ _ _. exact Hgone.
      * rewrite lookup_delete_ne in H1, H2 by exact Hne. split; [exact H1|].
        split.
        -- intros Hno. apply H2. intros r Hr. apply Hno. right. exact Hr.
        -- intros r [<-|Hr] Hk Hf; [contradiction|]. exact (H3 r Hr Hk Hf).
Qed.

Lemma first_by_id_removed (i : string) (rows : list Document) :
  NoDup (map id rows) ->
  List.find (fun doc => String.eqb (id doc) i) (remove_row i rows) = None.
Proof.
  induction rows as [|doc rows IH]; intros Hnd; [reflexivity|].
  cbn [remove_row]. inversion Hnd as [|? ? Hnot Hrest]; subst.
  destruct (String.eqb (id doc) i) eqn:E.
  - apply String.eqb_eq in E. subst i.
    destruct (List.find (fun d => String.eqb (id d) (id doc)) rows) as [d|] eqn:F;
      [|reflexivity].
    apply find_some in F. destruct F as [Hin Heq].
    apply String.eqb_eq in Heq. exfalso. apply Hnot.
    apply list_elem_of_In. rewrite <- Heq. apply in_map, Hin.
  - cbn [List.find]. rewrite E. apply IH, Hrest.
Qed.

(** X25: [delete_document] answers 404 and changes nothing when the document
    does not exist.  When it exists (the request's session holding no chunk
    row that is not committed yet) the call returns even if the index
    service fails on some or all vectors; afterwards the row of the document
    and its chunk rows are gone while the chunk rows of other documents
    stay, the stored file is gone, the vector of each of its chunk rows is
    gone unless the index service failed on it, and points that belong to no
    chunk row of the document are untouched. *)
Theorem delete_document_cascades (document_id : string) (w : world) :
  session_new_chunks (db w) = [] ->
  match first_by_id (db w) document_id with
  | None =>
      delete_document delete_failure document_id w
      = Raises (HTTPException 404 "Document not found") w
  | Some document =>
      exists w',
        delete_document delete_failure document_id w
        = Returns "Document deleted successfully" w' /\
        session_documents (db w')
        = remove_row document_id (session_documents (db w)) /\
        stored_documents (db w') = session_documents (db w') /\
        (NoDup (map id (session_documents (db w))) ->
         first_by_id (db w') document_id = None) /\
        (forall row,
            In row (stored_chunks (db w')) <->
            In row (stored_chunks (db w)) /\
            Store.document_id row <> document_id) /\
        files w' !! (UPLOAD_DIR +:+ "/" +:+ filename document) = None /\
        (forall row,
            In row (stored_chunks (db w)) ->
            Store.document_id row = document_id ->
            delete_failure (vector_id row) = None ->
            index w' !! vector_id row = None) /\
        (forall k,
            (forall row, In row (stored_chunks (db w)) ->
                         Store.document_id row = document_id ->
                         vector_id row <> k) ->
            index w' !! k = index w !! k)
  end.
Proof.
  intros Hfresh.
  destruct (first_by_id (db w) document_id) as [document|] eqn:Hdoc.
  - assert (Hid : id document = document_id).
    { unfold first_by_id in Hdoc. apply find_some in Hdoc.
      apply String.eqb_eq, Hdoc. }
    exists (document_deleted delete_failure document w).
    split; [apply delete_document_known, Hdoc|].
    assert (Hdocs : session_documents
                      (db (document_deleted delete_failure document w))
                    = remove_row (id document) (session_documents (db w)))
      by reflexivity.
    assert (Hstored : stored_documents
                        (db (document_deleted delete_failure document w))
                      = session_documents
                          (db (document_deleted delete_failure document w)))
      by reflexivity.
    assert (Hchunks : stored_chunks
                        (db (document_deleted delete_failure document w))
                      = List.filter
                          (fun row =>
                             negb (String.eqb (Store.document_id row)
                                     (id document)))
                          (stored_chunks (db w))
                        ++ session_new_chunks (db w))
      by reflexivity.
    rewrite Hfresh, app_nil_r in Hchunks.
    assert (Hfiles : files (document_deleted delete_failure document w)
                     = delete (UPLOAD_DIR +:+ "/" +:+ filename document)
                         (files w))
      by reflexivity.
    assert (Hindex : index (document_deleted delete_failure document w)
                     = vectors_deleted delete_failure
                         (chunks_of (id document) (db w)) (index w))
      by reflexivity.
    rewrite Hid in *.
    split; [exact Hdocs|]. split; [exact Hstored|]. split.
    { intros Hnd. unfold first_by_id. rewrite Hdocs.
      apply first_by_id_removed, Hnd. }
    split.
    { intros row. rewrite Hchunks, filter_In, negb_true_iff,
        String.eqb_neq. reflexivity. }
    split; [rewrite Hfiles; apply lookup_delete_eq|].
    split.
    + intros row Hrow Hrid Hok. rewrite Hindex.
      destruct (vectors_deleted_lookup (chunks_of document_id (db w))
                  (index w) (vector_id row)) as (_ & _ & H3).
      apply (H3 row); [|reflexivity|exact Hok].
      unfold chunks_of. apply filter_In. split; [exact Hrow|].
      apply String.eqb_eq, Hrid.
    + intros k Hk. rewrite Hindex.
      destruct (vectors_deleted_lookup (chunks_of document_id (db w))
                  (index w) k) as (_ & H2 & _).
      apply H2. intros row Hrow Hvk. exfalso.
      unfold chunks_of in Hrow. apply filter_In in Hrow.
      destruct Hrow as [Hrow Hrid]. apply String.eqb_eq in Hrid.
      exact (Hk row Hrow Hrid Hvk).
  - unfold delete_document, bind, get. rewrite Hdoc. reflexivity.
Qed.

End Deletion.

Lemma delete_document_cascades_witness :
  session_new_chunks (db ingested_world) = [] /\
  exists w',
    delete_document (fun _ => None) "id-0" ingested_world
    = Returns "Document deleted successfully" w' /\
    first_by_id (db w') "id-0" = None /\
    files w' !! "uploads/id-0_report.pdf" = None.
Proof.
  assert (Hfresh : session_new_chunks (db ingested_world) = [])
    by (vm_compute; reflexivity).
  split; [exact Hfresh|].
  pose proof (delete_document_cascades (fun _ => None) "id-0" ingested_world
                Hfresh) as H.
  assert (Hdoc : exists document,
             first_by_id (db ingested_world) "id-0" = Some document /\
             filename document = "id-0_report.pdf")
    by (eexists; split; vm_compute; reflexivity).
  destruct Hdoc as (document & Hdoc & Hname). rewrite Hdoc in H.
  destruct H as (w' & Hrun & _ & _ & Hgone & _ & Hfile & _).
  exists w'. split; [exact Hrun|]. split.
  - apply Hgone. vm_compute. repeat constructor. intros H; inversion H.
  - rewrite Hname in Hfile. exact Hfile.
Defined.

Section Statistics.
Context (scroll_failure : option exn).
Context (count_reply : gmap string PointStruct -> result Z).
Context (collection_reply : gmap string PointStruct -> result (option Z)).

Lemma stats_fields (n : Z) :
  stats n !! "total_chunks" = Some (SInt n) /\
  stats n !! "vector_dimension" = Some (SInt 384).
Proof. unfold stats. split; by simplify_map_eq. Qed.

Lemma first_page_empty (m : gmap string PointStruct) :
  take 1 (map snd (map_to_list m)) = [] <-> m = ∅.
Proof.
  split.
  - intros H. apply map_to_list_empty_iff.
    destruct (map_to_list m) as [|x l]; [reflexivity | discriminate].
  - intros ->. rewrite map_to_list_empty. reflexivity.
Qed.

Lemma qdrant_scroll_outcome (w : world) :
  qdrant_scroll scroll_failure w
  = match scroll_failure with
    | Some e => Raises e w
    | None => Returns (take 1 (map snd (map_to_list (index w)))) w
    end.
Proof. unfold qdrant_scroll. destruct scroll_failure; reflexivity. Qed.

(** The statistics in every case. *)
Lemma get_document_stats_returns (w : world) :
  exists n,
    get_document_stats scroll_failure count_reply collection_reply w
    = Returns (stats n) w /\
    stats n !! "vector_dimension" = Some (SInt 384) /\
    stats n !! "total_chunks" = Some (SInt n) /\
    n = match scroll_failure with
        | None =>
            if decide (index w = ∅) then 0
            else match count_reply (index w) with
                 | Ok c => c
                 | Err _ => 0
                 end
        | Some _ =>
            match collection_reply (index w) with
            | Ok (Some c) => c
            | _ => 0
            end
        end.
Proof.
  unfold get_document_stats.
  unfold try_except at 1 2. unfold bind at 1. rewrite qdrant_scroll_outcome.
  destruct scroll_failure as [e|].
  - unfold bind, get, lift.
    destruct (collection_reply (index w)) as [[c|]|e']; cbn [raise ret];
      eexists; (split; [reflexivity|]);
      (split; [apply stats_fields|]); (split; [apply stats_fields|]);
      reflexivity.
  - destruct (decide (index w = ∅)) as [Hempty|Hne].
    + rewrite (proj2 (first_page_empty (index w)) Hempty). cbn [ret].
      exists 0. split; [reflexivity|].
      split; [apply stats_fields|]. split; [apply stats_fields | reflexivity].
    + destruct (take 1 (map snd (map_to_list (index w)))) as [|pt page] eqn:E.
      * exfalso. apply Hne, first_page_empty, E.
      * unfold bind, try_except, get, lift.
        destruct (count_reply (index w)) as [c|e']; cbn [raise ret];
          eexists; (split; [reflexivity|]);
          (split; [apply stats_fields|]); (split; [apply stats_fields|]);
          reflexivity.
Qed.

(** X26: [get_document_stats] returns on every behaviour of the index
    service and changes nothing; the vector dimension it reports is always
    384; the count is 0 for an empty collection, the service's approximate
    count for a non-empty one (0 if counting fails), and, when scrolling
    itself fails, the point count of the collection information (0 if that
    is missing or fails too). *)
Theorem get_document_stats_never_raises (w : world) :
  exists n,
    get_document_stats scroll_failure count_reply collection_reply w
    = Returns (stats n) w /\
    stats n !! "vector_dimension" = Some (SInt 384) /\
    stats n !! "total_chunks" = Some (SInt n) /\
    n = match scroll_failure with
        | None =>
            if decide (index w = ∅) then 0
            else match count_reply (index w) with
                 | Ok c => c
                 | Err _ => 0
                 end
        | Some _ =>
            match collection_reply (index w) with
            | Ok (Some c) => c
            | _ => 0
            end
        end.
Proof. apply get_document_stats_returns. Qed.

(** X27: [health_check] reports [healthy], with database and vector index
    [connected], on every behaviour of the index service, a failing one
    included: the statistics it relies on never raise, so its [unhealthy]
    answer is never given. *)
Theorem health_check_always_healthy (w : world) :
  exists d,
    health_check scroll_failure count_reply collection_reply w = Returns d w /\
    d !! "status" = Some (SStr "healthy") /\
    d !! "database" = Some (SStr "connected") /\
    d !! "vector_db" = Some (SStr "connected") /\
    is_Some (d !! "total_chunks") /\
    d !! "error" = None.
Proof.
  destruct (get_document_stats_returns w) as (n & Hrun & _ & Hn & _).
  unfold health_check, try_except, bind. rewrite Hrun. cbn [ret].
  eexists. split; [reflexivity|]. rewrite Hn.
  unfold health_report. cbn [list_to_map foldr fst snd curry].
  repeat split; first [by simplify_map_eq | eexists; by simplify_map_eq].
Qed.

End Statistics.

End AdminFacts.
